(** * RecruitFlow AI: candidate status workflow and outreach dispatcher

    A shallow embedding of the TypeScript sources: the shared types
    (types.ts), the constants (constants.ts), the Gemini service
    (geminiService.ts), the persistence adapter (dbService.ts), the
    application shell (App.tsx), the message editor (MessageEditor.tsx)
    and the processing queue (ProcessingQueue.tsx), with the string
    primitives of the JavaScript runtime they call.

    Conventions of the embedding.
    - A JavaScript string is a [string]; one character stands for one
      UTF-16 code unit of the range U+0000..U+00FF. On this range
      [encodeURIComponent] never throws, [\D] is every character but the
      ten digits, and [toLowerCase] and [trim] are as written in [Js].
    - [undefined] is [None]; [a || b] on strings treats [undefined] and
      the empty string as falsy.
    - The collaborators outside the repository (the Gemini API, the
      Supabase client, the browser's [window.open], the clock) are the
      fields of an environment [Env]; every definition that calls one
      takes the environment, and every theorem holds for all of them.
    - A state hook is a field of a record; a handler is a function from
      state to state. An [async] handler is run to completion, its
      statements in program order, and a call to the adapter is answered
      before the next statement runs. What the user can observe (status
      updates, delays, windows asked for, alerts) is appended to a trace.
    - The roster is updated by id, as the code does it; where a property
      needs the ids of the roster to be distinct it says so, and rosters
      built from an upload have distinct ids
      ([constructed_roster_distinct_ids]). *)

From Stdlib Require Import Ascii String List Bool Arith Lia NArith.
From Stdlib Require Import DecimalString DecimalNat.
From stdpp Require Import base decidable gmap strings list.
Import ListNotations.

Local Open Scope string_scope.
Local Open Scope list_scope.

(* ===================================================================== *)
(** ** types.ts *)
(* ===================================================================== *)

Module Types.

(** [Candidate['status']] *)
Inductive status : Type := pending | sent | skipped | sending | failed.

Definition status_eqb (a b : status) : bool :=
  match a, b with
  | pending, pending | sent, sent | skipped, skipped
  | sending, sending | failed, failed => true
  | _, _ => false
  end.

(** [Record<string, string>]: the keys in insertion order, as
    [Object.keys] lists them. *)
Definition Row : Type := list (string * string).

Record Candidate : Type := mkCandidate {
  id : string;
  name : string;
  phone : string;
  originalRow : Row;
  cstatus : status
}.

Record MessageTemplate : Type := mkTemplate {
  intro : string;
  questions : list string;
  outro : string
}.

Inductive AppStep : Type := UPLOAD | MAPPING | EDITOR | QUEUE.

(** The interface declares three strings; the value comes from
    [JSON.parse] through a cast, so a field may be [undefined]. *)
Record GeminiMappingResponse : Type := mkMapping {
  name_column : option string;
  phone_column : option string;
  reasoning : option string
}.

End Types.
Export Types.

(* ===================================================================== *)
(** ** The string primitives of the runtime *)
(* ===================================================================== *)

Module Js.

Definition code (c : ascii) : nat := nat_of_ascii c.

Definition between (lo hi : nat) (c : ascii) : bool :=
  Nat.leb lo (code c) && Nat.leb (code c) hi.

(** [\d] *)
Definition isDigit (c : ascii) : bool := between 48 57 c.

(** WhiteSpace and LineTerminator of the range: TAB LF VT FF CR SP NBSP. *)
Definition isWhiteSpace (c : ascii) : bool :=
  between 9 13 c || Nat.eqb (code c) 32 || Nat.eqb (code c) 160.

(** [String.prototype.toLowerCase], one code unit at a time: A-Z, and
    the capital letters U+00C0..U+00DE except the sign U+00D7. *)
Definition lowerChar (c : ascii) : ascii :=
  if between 65 90 c || between 192 214 c || between 216 222 c
  then ascii_of_nat (code c + 32) else c.

Fixpoint toLowerCase (s : string) : string :=
  match s with
  | EmptyString => EmptyString
  | String c r => String (lowerChar c) (toLowerCase r)
  end.

Fixpoint startsWith (p s : string) : bool :=
  match p, s with
  | EmptyString, _ => true
  | String a p', String b s' => Ascii.eqb a b && startsWith p' s'
  | String _ _, EmptyString => false
  end.

(** [s.includes(sub)] *)
Fixpoint includes (s sub : string) : bool :=
  startsWith sub s ||
  match s with
  | EmptyString => false
  | String _ r => includes r sub
  end.

Fixpoint drop (n : nat) (s : string) : string :=
  match n, s with
  | O, _ => s
  | S k, String _ r => drop k r
  | S _, EmptyString => EmptyString
  end.

Fixpoint take (n : nat) (s : string) : string :=
  match n, s with
  | S k, String c r => String c (take k r)
  | _, _ => EmptyString
  end.

(** [s.split(' ')[0]]: the text before the first space, the whole
    string when there is none. *)
Fixpoint splitHead (s : string) : string :=
  match s with
  | EmptyString => EmptyString
  | String c r => if Ascii.eqb c " " then EmptyString else String c (splitHead r)
  end.

Fixpoint trimStart (s : string) : string :=
  match s with
  | EmptyString => EmptyString
  | String c r => if isWhiteSpace c then trimStart r else s
  end.

Fixpoint allWhiteSpace (s : string) : bool :=
  match s with
  | EmptyString => true
  | String c r => isWhiteSpace c && allWhiteSpace r
  end.

Fixpoint trimEnd (s : string) : string :=
  match s with
  | EmptyString => EmptyString
  | String c r => if allWhiteSpace s then EmptyString else String c (trimEnd r)
  end.

(** [s.trim()] *)
Definition trim (s : string) : string := trimEnd (trimStart s).

(** [xs.join(sep)] *)
Fixpoint join (sep : string) (xs : list string) : string :=
  match xs with
  | [] => ""
  | [x] => x
  | x :: rest => x +:+ sep +:+ join sep rest
  end.

(** GetSubstitution of the language specification, for a pattern with
    no capture group: in the replacement text [$$] is a dollar sign,
    [$&] the matched text, [$`] the text before the match, [$'] the
    text after it, and any other [$] stands for itself. *)
Fixpoint GetSubstitution (matched before after repl : string) : string :=
  match repl with
  | EmptyString => EmptyString
  | String a rest =>
      if Ascii.eqb a "$" then
        match rest with
        | String c r =>
            if Ascii.eqb c "$" then String "$" (GetSubstitution matched before after r)
            else if Ascii.eqb c "&" then matched +:+ GetSubstitution matched before after r
            else if Ascii.eqb c "`" then before +:+ GetSubstitution matched before after r
            else if Ascii.eqb c "'" then after +:+ GetSubstitution matched before after r
            else String "$" (GetSubstitution matched before after rest)
        | EmptyString => String "$" EmptyString
        end
      else String a (GetSubstitution matched before after rest)
  end.

(** [s.replace(/re/g, repl)] for a regular expression that, tried at
    the head of the remaining text, either fails or consumes [n > 0]
    characters ([matchAt] answers with [n]). The scan goes left to
    right; [skip] counts the characters of the current match still to
    be passed over and [before] is the text already scanned. *)
Fixpoint replaceScan (matchAt : string -> option nat) (repl : string)
         (skip : nat) (before s : string) : string :=
  match s with
  | EmptyString => EmptyString
  | String c r =>
      match skip with
      | S k => replaceScan matchAt repl k (before +:+ String c "") r
      | O =>
          match matchAt s with
          | Some (S k) =>
              GetSubstitution (take (S k) s) before (drop (S k) s) repl
                +:+ replaceScan matchAt repl k (before +:+ String c "") r
          | _ => String c (replaceScan matchAt repl 0 (before +:+ String c "") r)
          end
      end
  end.

Definition replaceAll (matchAt : string -> option nat) (repl s : string) : string :=
  replaceScan matchAt repl 0 "" s.

(** A regular expression that matches one character of a class. *)
Definition charClass (cls : ascii -> bool) (s : string) : option nat :=
  match s with
  | String c _ => if cls c then Some 1 else None
  | EmptyString => None
  end.

(** A regular expression that matches a fixed, non-empty text. *)
Definition literal (p : string) (s : string) : option nat :=
  if startsWith p s then Some (String.length p) else None.

Definition hexDigit (n : nat) : ascii :=
  if Nat.ltb n 10 then ascii_of_nat (48 + n) else ascii_of_nat (55 + n).

Definition percent (byte : nat) : string :=
  String "%" (String (hexDigit (byte / 16)) (String (hexDigit (byte mod 16)) "")).

(** The characters [encodeURIComponent] leaves alone:
    A-Z a-z 0-9 - _ . ! ~ * ' ( ) *)
Definition uriUnreserved (c : ascii) : bool :=
  between 65 90 c || between 97 122 c || isDigit c ||
  existsb (Ascii.eqb c) ["-"; "_"; "."; "!"; "~"; "*"; "'"; "("; ")"]%char.

(** [encodeURIComponent]: every other code unit is written as the
    percent-escaped bytes of its UTF-8 form (one byte below U+0080, two
    from there to U+00FF). *)
Fixpoint encodeURIComponent (s : string) : string :=
  match s with
  | EmptyString => EmptyString
  | String c r =>
      (if uriUnreserved c then String c ""
       else if Nat.ltb (code c) 128 then percent (code c)
       else percent (192 + code c / 64) +:+ percent (128 + code c mod 64))
      +:+ encodeURIComponent r
  end.

(** Template-literal rendering of a number. *)
Definition showNat (n : nat) : string := NilEmpty.string_of_uint (Nat.to_uint n).
Definition showN (n : N) : string := NilEmpty.string_of_uint (N.to_uint n).

(** What the specification asks of the personalization, as a relation
    between a text and its personalized form: every occurrence of the
    non-empty text [tok], found from left to right, is replaced by the
    text [new], and every other character is kept. *)
Inductive replacedAll (tok new : string) : string -> string -> Prop :=
| replaced_end : replacedAll tok new "" ""
| replaced_token s r :
    replacedAll tok new s r -> replacedAll tok new (tok +:+ s) (new +:+ r)
| replaced_char c s r :
    (forall b, String c s <> tok +:+ b) ->
    replacedAll tok new s r -> replacedAll tok new (String c s) (String c r).

(** The character [x] does not occur in [s]. *)
Definition without (x : ascii) (s : string) : Prop :=
  ~ List.In x (list_ascii_of_string s).

(** [t] is [n] up to its first space, all of [n] when it has none. *)
Definition upToFirstSpace (n t : string) : Prop :=
  without " " t /\ (n = t \/ exists rest, n = t +:+ " " +:+ rest).

End Js.

(* ===================================================================== *)
(** ** The collaborators outside the repository *)
(* ===================================================================== *)

Module World.

(** What a call to [ai.models.generateContent] comes to: the promise
    rejects, or it resolves to a response whose [text] may be
    [undefined]. *)
Inductive apiOutcome : Type :=
| Rejects
| Responds (text : option string).

Inductive tone : Type := professional | friendly | urgent.

(** A row of the [candidates] table. The table is written only by this
    adapter, so a stored status is a [status]; [None] is SQL NULL. *)
Record dbRow : Type := mkDbRow {
  row_id : string;
  row_name : string;
  row_phone : string;
  row_status : option status;
  row_original : option Row
}.

Record pgError : Type := mkPgError { code : string; message : string }.

Inductive request : Type :=
| Select                                   (* .select('*').order('created_at') *)
| Upsert (rows : list dbRow)               (* .upsert(rows) *)
| Update (rid : string) (st : status)      (* .update({status}).eq('id', id) *)
| DeleteAll.                               (* .delete().neq('id','placeholder') *)

(** [{ data, error }] *)
Record response : Type := mkResponse {
  data : option (list dbRow);
  error : option pgError
}.

Record Env : Type := mkEnv {
  (** [process.env.API_KEY] *)
  API_KEY : option string;
  (** the completion asked for the header prompt, built from the
      headers and the sample row *)
  generateMapping : list string -> Row -> apiOutcome;
  (** the completion asked for the tone prompt, built from the message
      and the tone *)
  generateTone : string -> tone -> apiOutcome;
  (** [JSON.parse] cast to the mapping interface; [None] when it throws *)
  JSON_parse : string -> option GeminiMappingResponse;
  (** the store's answer to a request, given the requests made before *)
  supabase : list request -> request -> response;
  (** whether [window.open(url, '_blank')] returns a handle, given the
      URLs asked for before *)
  window_open : list string -> string -> bool;
  (** [Date.now()] read while row [idx] is mapped *)
  Date_now : nat -> N
}.

(** The effects a user can observe, in the order they happen. *)
Inductive event : Type :=
| StatusSet (cid : string) (st : status)   (* onUpdateStatus(id, status) *)
| Timeout (ms : nat)                       (* await setTimeout *)
| WindowOpen (url : string) (ok : bool)    (* window.open, and its answer *)
| Alert (msg : string).                    (* alert *)

Definition opened (tr : list event) : list string :=
  flat_map (fun e => match e with WindowOpen u _ => [u] | _ => [] end) tr.

Definition statusCalls (tr : list event) : list (string * status) :=
  flat_map (fun e => match e with StatusSet i st => [(i, st)] | _ => [] end) tr.

(** [a || b] on strings that may be [undefined]: the empty string is
    falsy. *)
Definition orElse (a : option string) (b : option string) : option string :=
  match a with
  | Some EmptyString | None => b
  | Some _ => a
  end.

Definition orText (a : option string) (b : string) : string :=
  match a with
  | Some EmptyString | None => b
  | Some s => s
  end.

End World.
Export World.

(* ===================================================================== *)
(** ** services/geminiService.ts *)
(* ===================================================================== *)

Module GeminiService.
Section WithEnv.
Variable E : Env.

(** [getClient]: throws when the key is missing or empty. *)
Definition getClient : option string :=
  match API_KEY E with
  | Some EmptyString | None => None
  | Some k => Some k
  end.

(** The [catch] branch of [analyzeCsvHeaders]. *)
Definition fallbackMapping (headers : list string) : GeminiMappingResponse :=
  let nameFallback :=
    orElse (List.find (fun h => Js.includes (Js.toLowerCase h) "name") headers)
           (nth_error headers 0) in
  let phoneFallback :=
    orElse (List.find (fun h => Js.includes (Js.toLowerCase h) "phone"
                             || Js.includes (Js.toLowerCase h) "mobile"
                             || Js.includes (Js.toLowerCase h) "contact") headers)
           (nth_error headers 1) in
  {| name_column := nameFallback;
     phone_column := phoneFallback;
     reasoning := Some "Fallback logic due to API error" |}.

(** The [try] block of [analyzeCsvHeaders]; [None] when it throws. *)
Definition askMapping (headers : list string) (sampleRow : Row)
  : option GeminiMappingResponse :=
  match getClient with
  | None => None
  | Some _ =>
      match generateMapping E headers sampleRow with
      | Rejects => None
      | Responds text => JSON_parse E (orText text "{}")
      end
  end.

Definition analyzeCsvHeaders (headers : list string) (sampleRow : Row)
  : GeminiMappingResponse :=
  match askMapping headers sampleRow with
  | Some result => result
  | None => fallbackMapping headers
  end.

(** The [try] block of [refineMessageTone]; [None] when it throws. *)
Definition askTone (currentMessage : string) (t : tone) : option string :=
  match getClient with
  | None => None
  | Some _ =>
      match generateTone E currentMessage t with
      | Rejects => None
      | Responds text => Some (orText text currentMessage)
      end
  end.

Definition refineMessageTone (currentMessage : string) (t : tone) : string :=
  match askTone currentMessage t with
  | Some text => text
  | None => currentMessage
  end.

End WithEnv.
(** The words of the specification for the fallback: the header [h]
    contains the lower-case word [w], case ignored. *)
Definition containsCI (h w : string) : Prop :=
  exists a m b, h = a +:+ m +:+ b /\ Js.toLowerCase m = w.

(** [h] is the first of [headers] with the property [P]. *)
Definition firstWith (P : string -> Prop) (headers : list string) (h : string) : Prop :=
  exists pre post, headers = pre ++ h :: post /\ P h /\ List.Forall (fun x => ~ P x) pre.

(** [h] is the first header with [P], or no header has [P] and [h] is
    the header at position [dflt] (none when there is no such header). *)
Definition firstWithOr (P : string -> Prop) (dflt : nat) (headers : list string)
           (h : option string) : Prop :=
  (exists x, h = Some x /\ firstWith P headers x)
  \/ (List.Forall (fun x => ~ P x) headers /\ h = nth_error headers dflt).


(** The ways the [try] block of [refineMessageTone] throws. *)
Definition toneFails (E : Env) (currentMessage : string) (t : tone) : Prop :=
  getClient E = None \/ generateTone E currentMessage t = Rejects.

End GeminiService.

(* ===================================================================== *)
(** ** services/dbService.ts *)
(* ===================================================================== *)

Module DbService.

(** The module-level flag, and the requests sent to the store so far. *)
Record state : Type := mkState {
  isOfflineMode : bool;
  requests : list request
}.

Definition initial : state := {| isOfflineMode := false; requests := [] |}.

Definition setOffline (b : bool) (s : state) : state :=
  {| isOfflineMode := b; requests := requests s |}.

(** [error.code === 'PGRST205' || error.code === '42P01'] *)
Definition missingTable (e : pgError) : bool :=
  String.eqb (code e) "PGRST205" || String.eqb (code e) "42P01".

Definition mapRow (r : dbRow) : Candidate :=
  {| id := row_id r;
     name := row_name r;
     phone := row_phone r;
     cstatus := match row_status r with Some st => st | None => pending end;
     originalRow := match row_original r with Some o => o | None => [] end |}.

Definition toRow (c : Candidate) : dbRow :=
  {| row_id := id c;
     row_name := name c;
     row_phone := phone c;
     row_status := Some (cstatus c);
     row_original := Some (originalRow c) |}.

Section WithEnv.
Variable E : Env.

(** [await supabase.from('candidates')...] *)
Definition send (rq : request) (s : state) : response * state :=
  (supabase E (requests s) rq,
   {| isOfflineMode := isOfflineMode s; requests := requests s ++ [rq] |}).

Definition getAllCandidates (s : state)
  : (list Candidate * option string) * state :=
  let '(resp, s1) := send Select s in
  match error resp with
  | Some e =>
      if missingTable e
      then (([], Some "missing_table"), setOffline true s1)
      else (([], Some (message e)), s1)
  | None =>
      match data resp with
      | None => (([], None), s1)
      | Some rows => ((List.map mapRow rows, None), s1)
      end
  end.

Definition retryConnection (s : state) : bool * state :=
  let '((_, err), s1) := getAllCandidates (setOffline false s) in
  (negb (match err with Some m => String.eqb m "missing_table" | None => false end), s1).

(** The tail shared by the three writes: look at the error of the answer. *)
Definition afterWrite (r : response * state) : state :=
  let '(resp, s1) := r in
  match error resp with
  | Some e => if missingTable e then setOffline true s1 else s1
  | None => s1
  end.

Definition addCandidates (cs : list Candidate) (s : state) : state :=
  if isOfflineMode s || Nat.eqb (List.length cs) 0 then s
  else afterWrite (send (Upsert (List.map toRow cs)) s).

Definition updateStatus (cid : string) (st : status) (s : state) : state :=
  if isOfflineMode s then s
  else afterWrite (send (Update cid st) s).

Definition clearCandidates (s : state) : state :=
  if isOfflineMode s then s
  else afterWrite (send DeleteAll s).

End WithEnv.
(** The store answers the request with the schema-absent error. *)
Definition schemaAbsent (E : Env) (s : state) (rq : request) : Prop :=
  exists e, error (supabase E (requests s) rq) = Some e /\ missingTable e = true.

End DbService.

(* ===================================================================== *)
(** ** constants.ts *)
(* ===================================================================== *)

Module Constants.

Definition DEFAULT_SCREENING_QUESTIONS : list string :=
  [ "Total Experience?";
    "Relevant US Sales Experience?";
    "Current/Last CTC:";
    "Expected CTC:";
    "Official Notice Period:";
    "How soon you can join if you get selected?:";
    "Reason for job change:";
    "Location?:";
    "Do you have a personal system/setup to manage remotely?" ].

Definition DEFAULT_INTRO : string :=
  "Hi {{name}}, I am the Head of Talent Acquisition at our SaaS organization. We reviewed your profile and would like to proceed.".

Definition DEFAULT_OUTRO : string :=
  "Please reply with these details so we can schedule an interview. Thanks!".

End Constants.

(* ===================================================================== *)
(** ** App.tsx *)
(* ===================================================================== *)

Module App.

Inductive connection : Type := connected | offline.

(** The state hooks of [App], together with the adapter's state and the
    trace of observable effects. *)
Record state : Type := mkApp {
  step : AppStep;
  candidates : list Candidate;
  analyzing : bool;
  mappingReason : option string;
  isLoadingDB : bool;
  dbStatus : connection;
  template : MessageTemplate;
  db : DbService.state;
  trace : list event
}.

Definition initial : state :=
  {| step := UPLOAD; candidates := []; analyzing := false;
     mappingReason := Some ""; isLoadingDB := true; dbStatus := connected;
     template := {| intro := Constants.DEFAULT_INTRO;
                    questions := Constants.DEFAULT_SCREENING_QUESTIONS;
                    outro := Constants.DEFAULT_OUTRO |};
     db := DbService.initial; trace := [] |}.

Definition setStep (x : AppStep) (w : state) : state :=
  mkApp x (candidates w) (analyzing w) (mappingReason w) (isLoadingDB w)
        (dbStatus w) (template w) (db w) (trace w).
Definition setCandidates (x : list Candidate) (w : state) : state :=
  mkApp (step w) x (analyzing w) (mappingReason w) (isLoadingDB w)
        (dbStatus w) (template w) (db w) (trace w).
Definition setAnalyzing (x : bool) (w : state) : state :=
  mkApp (step w) (candidates w) x (mappingReason w) (isLoadingDB w)
        (dbStatus w) (template w) (db w) (trace w).
Definition setMappingReason (x : option string) (w : state) : state :=
  mkApp (step w) (candidates w) (analyzing w) x (isLoadingDB w)
        (dbStatus w) (template w) (db w) (trace w).
Definition setIsLoadingDB (x : bool) (w : state) : state :=
  mkApp (step w) (candidates w) (analyzing w) (mappingReason w) x
        (dbStatus w) (template w) (db w) (trace w).
Definition setDbStatus (x : connection) (w : state) : state :=
  mkApp (step w) (candidates w) (analyzing w) (mappingReason w) (isLoadingDB w)
        x (template w) (db w) (trace w).
Definition setTemplate (x : MessageTemplate) (w : state) : state :=
  mkApp (step w) (candidates w) (analyzing w) (mappingReason w) (isLoadingDB w)
        (dbStatus w) x (db w) (trace w).
Definition withDb (x : DbService.state) (w : state) : state :=
  mkApp (step w) (candidates w) (analyzing w) (mappingReason w) (isLoadingDB w)
        (dbStatus w) (template w) x (trace w).
Definition emit (e : event) (w : state) : state :=
  mkApp (step w) (candidates w) (analyzing w) (mappingReason w) (isLoadingDB w)
        (dbStatus w) (template w) (db w) (trace w ++ [e]).

(** [row[key]]: an [undefined] key reads the property named
    "undefined". *)
Definition rowGet (row : Row) (key : option string) : option string :=
  let k := match key with Some k => k | None => "undefined" end in
  match List.find (fun kv => String.eqb (fst kv) k) row with
  | Some kv => Some (snd kv)
  | None => None
  end.

Definition withStatus (st : status) (c : Candidate) : Candidate :=
  {| id := id c; name := name c; phone := phone c;
     originalRow := originalRow c; cstatus := st |}.

(** [prev.map(c => c.id === id ? { ...c, status } : c)] *)
Definition updateRoster (cid : string) (st : status) (cs : list Candidate)
  : list Candidate :=
  List.map (fun c => if String.eqb (id c) cid then withStatus st c else c) cs.

Definition nl : string := String (ascii_of_nat 10) "".

(** The template literal of [fullMessage], trimmed. *)
Definition fullMessage (t : MessageTemplate) : string :=
  Js.trim (nl +:+ intro t +:+ nl +:+ nl +:+ Js.join nl (questions t)
              +:+ nl +:+ nl +:+ outro t +:+ nl).

Section WithEnv.
Variable E : Env.

(** The effect hook run once on mount. *)
Definition loadCandidates (w : state) : state :=
  let '((rows, err), db1) := DbService.getAllCandidates E (db w) in
  let w1 := withDb db1 w in
  let w2 :=
    if match err with Some m => String.eqb m "missing_table" | None => false end
    then setDbStatus offline w1
    else if Nat.ltb 0 (List.length rows)
         then setStep QUEUE (setCandidates rows w1)
         else w1 in
  setIsLoadingDB false w2.

(** The candidate built from row [idx] of the upload. *)
Definition mapCandidate (mapping : GeminiMappingResponse) (idx : nat) (row : Row)
  : Candidate :=
  {| id := "c-" +:+ Js.showN (Date_now E idx) +:+ "-" +:+ Js.showNat idx;
     name := orText (rowGet row (name_column mapping)) "Candidate";
     phone := orText (rowGet row (phone_column mapping)) "";
     originalRow := row;
     cstatus := pending |}.

(** [rawData.map(...).filter(c => c.phone.length > 5)] *)
Definition mappedCandidates (mapping : GeminiMappingResponse) (rawData : list Row)
  : list Candidate :=
  List.filter (fun c => Nat.ltb 5 (String.length (phone c)))
              (imap (mapCandidate mapping) rawData).

(** [handleDataLoaded]. On an empty upload [Object.keys(rawData[0])]
    throws, and the handler stops with [analyzing] set. *)
Definition handleDataLoaded (rawData : list Row) (w : state) : state :=
  let w1 := setAnalyzing true w in
  match rawData with
  | [] => w1
  | first :: _ =>
      let headers := List.map fst first in
      let mapping := GeminiService.analyzeCsvHeaders E headers first in
      let w2 := setMappingReason (reasoning mapping) w1 in
      let mapped := mappedCandidates mapping rawData in
      let db1 := DbService.clearCandidates E (db w2) in
      let db2 := DbService.addCandidates E mapped db1 in
      setStep MAPPING (setAnalyzing false (setCandidates mapped (withDb db2 w2)))
  end.

Definition handleUpdateStatus (cid : string) (st : status) (w : state) : state :=
  let w1 := emit (StatusSet cid st) w in
  let w2 := setCandidates (updateRoster cid st (candidates w1)) w1 in
  withDb (DbService.updateStatus E cid st (db w2)) w2.

Definition handleReset (w : state) : state :=
  let w1 := setStep UPLOAD (setCandidates [] w) in
  withDb (DbService.clearCandidates E (db w1)) w1.

Definition handleVerifyConnection (w : state) : state :=
  let '(isConnected, db1) := DbService.retryConnection E (db w) in
  let w1 := withDb db1 w in
  if isConnected then setDbStatus connected w1
  else emit (Alert "Still cannot find the 'candidates' table. Please ensure the SQL ran successfully in Supabase.") w1.

End WithEnv.
End App.

(* ===================================================================== *)
(** ** components/MessageEditor.tsx *)
(* ===================================================================== *)

Module MessageEditor.
Section WithEnv.
Variable E : Env.

Definition dquote : ascii := ascii_of_nat 34.

(** [handleRefine]: the intro goes to the tone collaborator, and what
    comes back is stored with its double quotes removed. *)
Definition handleRefine (t : tone) (w : App.state) : App.state :=
  let prev := App.template w in
  let newIntro := GeminiService.refineMessageTone E (intro prev) t in
  App.setTemplate
    {| intro := Js.replaceAll (Js.charClass (Ascii.eqb dquote)) "" newIntro;
       questions := questions prev;
       outro := outro prev |} w.

End WithEnv.

(** [questions.filter((_, i) => i !== index)], from position [pos] on. *)
Fixpoint dropIndex (index pos : nat) (qs : list string) : list string :=
  match qs with
  | [] => []
  | x :: rest =>
      if Nat.eqb pos index then dropIndex index (S pos) rest
      else x :: dropIndex index (S pos) rest
  end.

Definition removeQuestion (index : nat) (w : App.state) : App.state :=
  let prev := App.template w in
  App.setTemplate {| intro := intro prev;
                     questions := dropIndex index 0 (questions prev);
                     outro := outro prev |} w.

Definition addQuestion (w : App.state) : App.state :=
  let prev := App.template w in
  App.setTemplate {| intro := intro prev;
                     questions := questions prev ++ ["New Question?"];
                     outro := outro prev |} w.

(** The editor's own [fullMessage], the same template literal as the
    application's. *)
Definition fullMessage (t : MessageTemplate) : string :=
  Js.trim (App.nl +:+ intro t +:+ App.nl +:+ App.nl +:+ Js.join App.nl (questions t)
                  +:+ App.nl +:+ App.nl +:+ outro t +:+ App.nl).

(** The text of the preview bubble:
    [fullMessage.replace(/{{name}}/g, previewName.split(' ')[0])] *)
Definition preview (t : MessageTemplate) (previewName : string) : string :=
  Js.replaceAll (Js.literal "{{name}}") (Js.splitHead previewName) (fullMessage t).

End MessageEditor.

(* ===================================================================== *)
(** ** components/ProcessingQueue.tsx *)
(* ===================================================================== *)

Module ProcessingQueue.

Inductive bulkAction : Type := all | selected.

(** The state hooks of the component. *)
Record state : Type := mkQueue {
  candidateToConfirm : option Candidate;
  isBulkSending : bool;
  showBulkConfirm : bool;
  selectedIds : gset string;
  bulkActionType : option bulkAction
}.

(** The state of a freshly mounted component. *)
Definition initial : state :=
  {| candidateToConfirm := None; isBulkSending := false;
     showBulkConfirm := false; selectedIds := ∅; bulkActionType := None |}.

Definition setCandidateToConfirm (x : option Candidate) (q : state) : state :=
  mkQueue x (isBulkSending q) (showBulkConfirm q) (selectedIds q) (bulkActionType q).
Definition setIsBulkSending (x : bool) (q : state) : state :=
  mkQueue (candidateToConfirm q) x (showBulkConfirm q) (selectedIds q) (bulkActionType q).
Definition setShowBulkConfirm (x : bool) (q : state) : state :=
  mkQueue (candidateToConfirm q) (isBulkSending q) x (selectedIds q) (bulkActionType q).
Definition setSelectedIds (x : gset string) (q : state) : state :=
  mkQueue (candidateToConfirm q) (isBulkSending q) (showBulkConfirm q) x (bulkActionType q).
Definition setBulkActionType (x : option bulkAction) (q : state) : state :=
  mkQueue (candidateToConfirm q) (isBulkSending q) (showBulkConfirm q) (selectedIds q) x.

Definition isPending (c : Candidate) : bool := status_eqb (cstatus c) pending.

Definition pendingCount (cs : list Candidate) : nat :=
  List.length (List.filter isPending cs).

(** [phone.replace(/\D/g, '')] *)
Definition formatPhone (phone : string) : string :=
  Js.replaceAll (Js.charClass (fun c => negb (Js.isDigit c))) "" phone.

(** [(candidate.name || 'Candidate').split(' ')[0]] *)
Definition namePart (c : Candidate) : string :=
  Js.splitHead (orText (Some (name c)) "Candidate").

(** [finalMessage.replace(/{{name}}/g, namePart)] *)
Definition personalizedMessage (finalMessage : string) (c : Candidate) : string :=
  Js.replaceAll (Js.literal "{{name}}") (namePart c) finalMessage.

Definition whatsAppUrl (finalMessage : string) (c : Candidate) : string :=
  "https://api.whatsapp.com/send?phone=" +:+ formatPhone (phone c)
    +:+ "&text=" +:+ Js.encodeURIComponent (personalizedMessage finalMessage c).

(** The buttons a roster row shows. *)
Inductive button : Type := SkipButton | SendButton | RetryButton.

Definition rowButtons (c : Candidate) : list button :=
  if isPending c then [SkipButton; SendButton] else [RetryButton].

Section WithEnv.
Variable E : Env.

(** The props: [finalMessage] is [fullMessage] of the template,
    [candidates] the roster, [onUpdateStatus] is [handleUpdateStatus]
    and [onReset] is [handleReset]. *)
Definition finalMessage (w : App.state) : string :=
  App.fullMessage (App.template w).

Definition openWhatsApp (c : Candidate) (w : App.state) : bool * App.state :=
  let cleanPhone := formatPhone (phone c) in
  if String.eqb cleanPhone "" then (false, w)
  else
    let url := whatsAppUrl (finalMessage w) c in
    let win := window_open E (opened (App.trace w)) url in
    (win, App.emit (WindowOpen url win) w).

Definition executeSend (c : Candidate) (w : App.state) : App.state :=
  let w1 := App.handleUpdateStatus E (id c) sending w in
  let w2 := App.emit (Timeout 800) w1 in
  let '(success, w3) := openWhatsApp c w2 in
  if success then App.handleUpdateStatus E (id c) sent w3
  else
    App.emit (Alert ("Could not open WhatsApp for " +:+ name c
                      +:+ ". Please check popup blockers."))
             (App.handleUpdateStatus E (id c) failed w3).

Definition handleSingleSendClick (c : Candidate) (q : state) : state :=
  setCandidateToConfirm (Some c) q.

Definition confirmSingleSend (q : state) (w : App.state) : state * App.state :=
  match candidateToConfirm q with
  | Some c => (setCandidateToConfirm None q, executeSend c w)
  | None => (q, w)
  end.

Definition handleBulkSendClick (q : state) (w : App.state) : state :=
  if Nat.eqb (pendingCount (App.candidates w)) 0 then q
  else setShowBulkConfirm true (setBulkActionType (Some all) q).

Definition handleSelectedSendClick (q : state) : state :=
  if Nat.eqb (size (selectedIds q)) 0 then q
  else setShowBulkConfirm true (setBulkActionType (Some selected) q).

(** One turn of the [for ... of] loop of [processCandidateList]. *)
Definition processOne (c : Candidate) (w : App.state) : App.state :=
  let w1 := App.handleUpdateStatus E (id c) sending w in
  let w2 := App.emit (Timeout 1500) w1 in
  let '(success, w3) := openWhatsApp c w2 in
  if success then App.handleUpdateStatus E (id c) sent w3
  else App.handleUpdateStatus E (id c) failed w3.

Fixpoint processLoop (cs : list Candidate) (w : App.state) : App.state :=
  match cs with
  | [] => w
  | c :: rest => processLoop rest (processOne c w)
  end.

Definition processCandidateList (candidatesToProcess : list Candidate)
           (q : state) (w : App.state) : state * App.state :=
  let q1 := setIsBulkSending true (setShowBulkConfirm false q) in
  let q2 := match bulkActionType q with
            | Some selected => setSelectedIds ∅ q1
            | _ => q1
            end in
  let w' := processLoop candidatesToProcess w in
  (setBulkActionType None (setIsBulkSending false q2), w').

Definition bulkTargets (q : state) (w : App.state) : list Candidate :=
  match bulkActionType q with
  | Some all => List.filter isPending (App.candidates w)
  | Some selected =>
      List.filter (fun c => bool_decide (id c ∈ selectedIds q)) (App.candidates w)
  | None => []
  end.

Definition confirmBulkSend (q : state) (w : App.state) : state * App.state :=
  processCandidateList (bulkTargets q w) q w.

Definition handleRetry (c : Candidate) (q : state) : state :=
  setCandidateToConfirm (Some c) q.

Definition toggleSelection (cid : string) (q : state) : state :=
  if bool_decide (cid ∈ selectedIds q)
  then setSelectedIds (selectedIds q ∖ {[cid]}) q
  else setSelectedIds (selectedIds q ∪ {[cid]}) q.

Definition toggleSelectAll (q : state) (w : App.state) : state :=
  if Nat.eqb (size (selectedIds q)) (List.length (App.candidates w))
  then setSelectedIds ∅ q
  else setSelectedIds (list_to_set (List.map id (App.candidates w))) q.

(** [candidates.forEach]: the roster walked is the one of the render
    the handler belongs to; each call updates the live state. *)
Fixpoint forEachCandidate (f : Candidate -> App.state -> App.state)
         (cs : list Candidate) (w : App.state) : App.state :=
  match cs with
  | [] => w
  | c :: rest => forEachCandidate f rest (f c w)
  end.

Definition handleBulkSkip (q : state) (w : App.state) : state * App.state :=
  let w' := forEachCandidate
              (fun c w0 =>
                 if bool_decide (id c ∈ selectedIds q) && isPending c
                 then App.handleUpdateStatus E (id c) skipped w0 else w0)
              (App.candidates w) w in
  (setSelectedIds ∅ q, w').

Definition handleBulkRetry (q : state) (w : App.state) : state * App.state :=
  let w' := forEachCandidate
              (fun c w0 =>
                 if bool_decide (id c ∈ selectedIds q)
                 then App.handleUpdateStatus E (id c) pending w0 else w0)
              (App.candidates w) w in
  (setSelectedIds ∅ q, w').

(** The Skip button of a row. *)
Definition skipClick (c : Candidate) (w : App.state) : App.state :=
  App.handleUpdateStatus E (id c) skipped w.

End WithEnv.
End ProcessingQueue.

(* ===================================================================== *)
(** ** The page: [App] and, while the step is QUEUE, the mounted queue *)
(* ===================================================================== *)

Module Page.

Record state : Type := mkPage {
  app : App.state;
  queue : option ProcessingQueue.state
}.

(** [{step === AppStep.QUEUE && <ProcessingQueue ... />}]: the
    component keeps its state while it stays mounted, loses it when the
    step leaves QUEUE, and starts from [initial] when mounted again. *)
Definition render (p : state) : state :=
  match App.step (app p) with
  | QUEUE =>
      {| app := app p;
         queue := Some (match queue p with
                        | Some q => q
                        | None => ProcessingQueue.initial
                        end) |}
  | _ => {| app := app p; queue := None |}
  end.

(** A handler of [App] runs, then the page renders again. *)
Definition appHandler (f : App.state -> App.state) (p : state) : state :=
  render {| app := f (app p); queue := queue p |}.

(** A handler of the mounted queue runs, then the page renders again. *)
Definition queueHandler
           (f : ProcessingQueue.state -> App.state -> ProcessingQueue.state * App.state)
           (p : state) : state :=
  match queue p with
  | Some q => let '(q', w') := f q (app p) in render {| app := w'; queue := Some q' |}
  | None => p
  end.

(** The ids selected on the page; none while the queue is not mounted. *)
Definition selection (p : state) : gset string :=
  match queue p with
  | Some q => ProcessingQueue.selectedIds q
  | None => ∅
  end.

End Page.

(* ===================================================================== *)
(** ** The workflow as the user drives it, and what is observed of it *)
(* ===================================================================== *)

Module Workflow.





(** The status calls made between two states of the application. *)
Definition newCalls (w w' : App.state) : list (string * status) :=
  List.skipn (List.length (statusCalls (App.trace w))) (statusCalls (App.trace w')).



(** The operations of the workflow: a click and, where the code asks
    for one, the confirmation that follows. *)
Inductive operation : Type :=
| SingleSend (c : Candidate)
| Retry (c : Candidate)
| Skip (c : Candidate)
| BulkSendAll
| BulkSendSelected
| BulkSkip
| BulkRetry.

(** No modal is open and no batch is running. *)
Definition idle (q : ProcessingQueue.state) : Prop :=
  ProcessingQueue.candidateToConfirm q = None
  /\ ProcessingQueue.showBulkConfirm q = false
  /\ ProcessingQueue.isBulkSending q = false.

(** The page offers the control of the operation: a row shows its
    buttons by the status of its candidate, the action bar shows while
    something is selected. *)
Definition offered (op : operation) (q : ProcessingQueue.state) (w : App.state) : Prop :=
  idle q /\
  match op with
  | SingleSend c =>
      List.In c (App.candidates w)
      /\ List.In ProcessingQueue.SendButton (ProcessingQueue.rowButtons c)
  | Retry c =>
      List.In c (App.candidates w)
      /\ List.In ProcessingQueue.RetryButton (ProcessingQueue.rowButtons c)
  | Skip c =>
      List.In c (App.candidates w)
      /\ List.In ProcessingQueue.SkipButton (ProcessingQueue.rowButtons c)
  | BulkSendAll => True
  | BulkSendSelected | BulkSkip | BulkRetry => 0 < size (ProcessingQueue.selectedIds q)
  end.

Section WithEnv.
Variable E : Env.

(** A bulk send: the click, then the confirmation when the click opened
    the modal. *)
Definition confirmIfShown (q : ProcessingQueue.state) (w : App.state)
  : ProcessingQueue.state * App.state :=
  if ProcessingQueue.showBulkConfirm q then ProcessingQueue.confirmBulkSend E q w
  else (q, w).

Definition run (op : operation) (q : ProcessingQueue.state) (w : App.state)
  : ProcessingQueue.state * App.state :=
  match op with
  | SingleSend c =>
      ProcessingQueue.confirmSingleSend E (ProcessingQueue.handleSingleSendClick c q) w
  | Retry c =>
      ProcessingQueue.confirmSingleSend E (ProcessingQueue.handleRetry c q) w
  | Skip c => (q, ProcessingQueue.skipClick E c w)
  | BulkSendAll => confirmIfShown (ProcessingQueue.handleBulkSendClick q w) w
  | BulkSendSelected => confirmIfShown (ProcessingQueue.handleSelectedSendClick q) w
  | BulkSkip => ProcessingQueue.handleBulkSkip E q w
  | BulkRetry => ProcessingQueue.handleBulkRetry E q w
  end.


End WithEnv.






End Workflow.
Export Workflow.

(* ===================================================================== *)
(** ** services/csvService.ts *)
(* ===================================================================== *)

Module CsvService.

Definition quote : ascii := ascii_of_nat 34.
Definition comma : ascii := ",".
Definition LF : ascii := ascii_of_nat 10.
Definition CR : ascii := ascii_of_nat 13.

(** [result.push(curVal)] *)
Definition push (result : list string) (curVal : string) : list string :=
  result ++ [curVal].

(** The loop of [parseLine] from position [i] on: [text] is what is left
    to read, [curVal], [inQuote] and [result] are its three variables.
    A quote inside a quoted field followed by another quote adds one
    quote and steps over both. *)
Fixpoint parseLineLoop (text : string) (curVal : string) (inQuote : bool)
         (result : list string) : list string :=
  match text with
  | EmptyString => push result curVal
  | String char rest =>
      if inQuote then
        if Ascii.eqb char quote then
          match rest with
          | String next rest' =>
              if Ascii.eqb next quote
              then parseLineLoop rest' (curVal +:+ String quote "") true result
              else parseLineLoop rest curVal false result
          | EmptyString => parseLineLoop rest curVal false result
          end
        else parseLineLoop rest (curVal +:+ String char "") true result
      else
        if Ascii.eqb char quote then parseLineLoop rest curVal true result
        else if Ascii.eqb char comma then parseLineLoop rest "" false (push result curVal)
        else parseLineLoop rest (curVal +:+ String char "") false result
  end.

Definition parseLine (text : string) : list string :=
  parseLineLoop text "" false [].

Definition consHead (c : ascii) (l : list string) : list string :=
  match l with
  | [] => [String c ""]
  | h :: t => String c h :: t
  end.

(** [s.split(/\r\n|\n/)]: a line ends at CR LF or at LF; a CR alone
    stays in its line. *)
Fixpoint splitLines (s : string) : list string :=
  match s with
  | EmptyString => [""]
  | String c r =>
      if Ascii.eqb c LF then "" :: splitLines r
      else if Ascii.eqb c CR then
        match r with
        | String c2 r2 =>
            if Ascii.eqb c2 LF then "" :: splitLines r2
            else consHead c (splitLines r)
        | EmptyString => consHead c (splitLines r)
        end
      else consHead c (splitLines r)
  end.

Fixpoint allDigits (s : string) : bool :=
  match s with
  | EmptyString => true
  | String c r => Js.isDigit c && allDigits r
  end.

(** The number a text of digits stands for. *)
Fixpoint digitsValue (acc : N) (s : string) : N :=
  match s with
  | EmptyString => acc
  | String c r => digitsValue (acc * 10 + N.of_nat (Js.code c - 48)) r
  end.

(** An array index: the canonical decimal text of an integer below
    2^32 - 1. An object lists such keys first, in ascending order. *)
Definition isArrayIndex (k : string) : bool :=
  match k with
  | EmptyString => false
  | String c r =>
      allDigits k
      && (negb (Ascii.eqb c "0") || String.eqb r "")
      && Nat.leb (String.length k) 10
      && N.ltb (digitsValue 0 k) 4294967295
  end.

Definition hasKey (k : string) (row : Row) : bool :=
  existsb (fun kv => String.eqb (fst kv) k) row.

(** A new key takes its place in the order [Object.keys] lists: an array
    index goes before every other key and before the larger indices,
    any other key goes last. *)
Fixpoint insertKey (k v : string) (row : Row) : Row :=
  match row with
  | [] => [(k, v)]
  | (k', v') :: rest =>
      if isArrayIndex k
         && (negb (isArrayIndex k') || N.ltb (digitsValue 0 k) (digitsValue 0 k'))
      then (k, v) :: row
      else (k', v') :: insertKey k v rest
  end.

(** [row[k] = v] for a text [v]: a key already there keeps its place and
    takes the new value; assigning a text to [__proto__] does nothing. *)
Definition rowSet (k v : string) (row : Row) : Row :=
  if String.eqb k "__proto__" then row
  else if hasKey k row
       then List.map (fun kv => if String.eqb (fst kv) k then (k, v) else kv) row
       else insertKey k v row.

(** [values[index]?.trim() || ''] *)
Definition cell (values : list string) (index : nat) : string :=
  match nth_error values index with
  | Some v => orText (Some (Js.trim v)) ""
  | None => ""
  end.

(** [headers.forEach((header, index) => row[header.trim()] = ...)],
    from position [index] on. *)
Fixpoint fillRow (headers : list string) (index : nat) (values : list string)
         (row : Row) : Row :=
  match headers with
  | [] => row
  | header :: rest =>
      fillRow rest (S index) values (rowSet (Js.trim header) (cell values index) row)
  end.

(** The body of the [for] loop over the lines after the first. *)
Fixpoint dataRows (headers : list string) (lines : list string) : list Row :=
  match lines with
  | [] => []
  | currentLine :: rest =>
      if String.eqb (Js.trim currentLine) "" then dataRows headers rest
      else fillRow headers 0 (parseLine currentLine) [] :: dataRows headers rest
  end.

Definition parseCSV (content : string) : list Row :=
  match splitLines (Js.trim content) with
  | first :: ((_ :: _) as rest) => dataRows (parseLine first) rest
  | _ => []
  end.

(** A field written the way a spreadsheet exports it: between quotes,
    each quote of the field doubled. *)
Fixpoint doubleQuotes (s : string) : string :=
  match s with
  | EmptyString => EmptyString
  | String c r =>
      if Ascii.eqb c quote then String quote (String quote (doubleQuotes r))
      else String c (doubleQuotes r)
  end.

Definition quoted (field : string) : string :=
  String quote (doubleQuotes field) +:+ String quote "".

End CsvService.

(* ===================================================================== *)
(** ** Sample inputs *)
(* ===================================================================== *)

Module Samples.

(** An environment with no API key, a store that answers every request
    with an empty success, and a browser that opens every window. *)
Definition quietEnv : Env :=
  {| API_KEY := None;
     generateMapping := fun _ _ => Rejects;
     generateTone := fun _ _ => Rejects;
     JSON_parse := fun _ => None;
     supabase := fun _ _ => {| data := Some []; error := None |};
     window_open := fun _ _ => true;
     Date_now := fun _ => 1700000000000%N |}.

Definition candidate (i n p : string) (st : status) : Candidate :=
  {| id := i; name := n; phone := p; originalRow := []; cstatus := st |}.

Definition withRoster (cs : list Candidate) : App.state :=
  App.setStep QUEUE (App.setCandidates cs App.initial).

Definition noDigits : Candidate := candidate "c-1-0" "Ann Lee" "+() - ext." pending.

Definition ann : Candidate := candidate "c-1-0" "Ann Lee" "+1 (555) 012-3456" pending.
Definition bob : Candidate := candidate "c-1-1" "Bob" "+44 20 7946 0958" sent.
Definition cyd : Candidate := candidate "c-1-2" "Cyd Ray" "555-0100" pending.

(** A roster of three, two of them pending. *)
Definition roster3 : list Candidate := [ann; bob; cyd].


(** The idle queue with Bob's row ticked. *)
Definition bobTicked : ProcessingQueue.state :=
  ProcessingQueue.setSelectedIds {[ "c-1-1" ]} ProcessingQueue.initial.

Definition queuePage : Page.state :=
  {| Page.app := withRoster roster3; Page.queue := Some bobTicked |}.

Definition bobRow : Row := [("Name", "Bob"); ("Phone", "12")].
Definition annRow : Row := [("Name", "Ann Lee"); ("Phone", "+1 (555) 012-3456")].

(** A phone of eight characters, four of them digits. *)
Definition deeRow : Row := [("Name", "Dee"); ("Phone", "+1-2-3-4")].

Definition byNameAndPhone : GeminiMappingResponse :=
  {| name_column := Some "Name"; phone_column := Some "Phone"; reasoning := None |}.

(** The table a sequence of requests leaves behind. *)
Definition upsertRow (tbl : list dbRow) (r : dbRow) : list dbRow :=
  if existsb (fun x => String.eqb (row_id x) (row_id r)) tbl
  then List.map (fun x => if String.eqb (row_id x) (row_id r) then r else x) tbl
  else tbl ++ [r].

Definition applyRequest (tbl : list dbRow) (rq : request) : list dbRow :=
  match rq with
  | Select => tbl
  | Upsert rows => List.fold_left upsertRow rows tbl
  | Update i st =>
      List.map (fun x => if String.eqb (row_id x) i
                         then mkDbRow (row_id x) (row_name x) (row_phone x) (Some st)
                                      (row_original x)
                         else x) tbl
  | DeleteAll => []
  end.

(** An environment like [quietEnv] whose store keeps a table. *)
Definition storeEnv : Env :=
  {| API_KEY := None;
     generateMapping := fun _ _ => Rejects;
     generateTone := fun _ _ => Rejects;
     JSON_parse := fun _ => None;
     supabase := fun before rq =>
       {| data := match rq with
                  | Select => Some (List.fold_left applyRequest before [])
                  | _ => None
                  end;
          error := None |};
     window_open := fun _ _ => true;
     Date_now := fun _ => 1700000000000%N |}.

(** A session that uploads Ann's row and is closed while her send waits
    for its delay, just after the status was set to sending. *)
Definition interrupted : App.state :=
  let w1 := App.handleDataLoaded storeEnv [annRow] App.initial in
  App.handleUpdateStatus storeEnv "c-1700000000000-0" sending w1.

(** The page loaded again: the application and the adapter start afresh,
    the store still has what the first session sent. *)
Definition restart : App.state :=
  App.withDb {| DbService.isOfflineMode := false;
                DbService.requests := DbService.requests (App.db interrupted) |}
             App.initial.

Definition reloaded : App.state := App.loadCandidates storeEnv restart.

(** Ann's row as the store has it after the interrupted session. *)
Definition annStored : dbRow :=
  {| row_id := "c-1700000000000-0"; row_name := "Ann Lee";
     row_phone := "+1 (555) 012-3456"; row_status := Some sending;
     row_original := Some annRow |}.

(** An environment whose store has no [candidates] table. *)
Definition noTableEnv : Env :=
  {| API_KEY := None;
     generateMapping := fun _ _ => Rejects;
     generateTone := fun _ _ => Rejects;
     JSON_parse := fun _ => None;
     supabase := fun _ _ =>
       {| data := None;
          error := Some {| code := "PGRST205";
                           message := "Could not find the table 'public.candidates' in the schema cache" |} |};
     window_open := fun _ _ => true;
     Date_now := fun _ => 1700000000000%N |}.

Definition offlineDb : DbService.state :=
  {| DbService.isOfflineMode := true; DbService.requests := [Select] |}.

Definition jane : Candidate := candidate "c-1-3" "Jane Doe" "+1 555 0100" pending.

(** A candidate whose stored name is empty. *)
Definition nameless : Candidate := candidate "c-1-4" "" "+1 555 0101" pending.

Definition hiTemplate : MessageTemplate :=
  {| intro := "Hi {{name}}"; questions := ["Q1?"]; outro := "Bye" |}.

(** A candidate whose name starts with the pattern for the matched text. *)
Definition dollar : Candidate := candidate "c-1-5" "$& Smith" "+1 555 0102" pending.

Definition quoteMark : string := String MessageEditor.dquote "".

(** An intro that quotes a word. *)
Definition quotedIntro : string :=
  "Hi {{name}}, we liked your " +:+ quoteMark +:+ "Sales" +:+ quoteMark +:+ " profile.".

Definition quotedTemplate : MessageTemplate :=
  {| intro := quotedIntro; questions := ["Q1?"]; outro := "Bye" |}.

End Samples.

(* ===================================================================== *)
(** ** components/FileUpload.tsx *)
(* ===================================================================== *)

Module FileUpload.

(** What the component uses of a [File]: its name, and its content as
    [readAsText] gives it. *)
Record File : Type := mkFile { fname : string; text : string }.

(** The state hooks of the component. *)
Record state : Type := mkUpload { error : option string; isDragging : bool }.

Definition initial : state := {| error := None; isDragging := false |}.

Definition setError (x : option string) (st : state) : state :=
  {| error := x; isDragging := isDragging st |}.

(** [s.endsWith(suffix)] *)
Definition endsWith (s suffix : string) : bool :=
  Nat.leb (String.length suffix) (String.length s)
  && String.eqb (Js.drop (String.length s - String.length suffix) s) suffix.

Section WithParser.
(** [parseExcel] of the xlsx library on the file's bytes; [None] when it
    throws. *)
Variable parseExcel : File -> option (list Row).

(** [processFile], with the reader's [onload] run: the new state, and
    the data handed to [onDataLoaded] when it is called. *)
Definition processFile (file : File) (st : state) : state * option (list Row) :=
  let st1 := setError None st in
  let isCsv := endsWith (fname file) ".csv" in
  let isExcel := endsWith (fname file) ".xlsx" || endsWith (fname file) ".xls" in
  if negb isCsv && negb isExcel
  then (setError (Some "Please upload a valid CSV or Excel file.") st1, None)
  else
    match (if isCsv then Some (CsvService.parseCSV (text file)) else parseExcel file) with
    | Some parsed =>
        if Nat.eqb (List.length parsed) 0
        then (setError (Some "The file appears to be empty.") st1, None)
        else (st1, Some parsed)
    | None => (setError (Some "Failed to parse file. Please check the format.") st1, None)
    end.

End WithParser.
End FileUpload.

(* ===================================================================== *)
(** ** The upload step of the page *)
(* ===================================================================== *)

Module UploadStep.
Section WithEnv.
Variable E : Env.
Variable parseExcel : FileUpload.File -> option (list Row).


End WithEnv.
End UploadStep.

(* ===================================================================== *)
(** ** More of what is observed *)
(* ===================================================================== *)

Module Observed.

(** The alerts shown, in order. *)
Definition alerts (tr : list event) : list string :=
  flat_map (fun e => match e with Alert m => [m] | _ => [] end) tr.

(** What a roster entry is apart from its status. *)
Definition identity (c : Candidate) : string * string * string * Row :=
  (id c, name c, phone c, originalRow c).

(** The phone has a digit, so a link can be built. *)
Definition hasDigits (c : Candidate) : bool :=
  negb (String.eqb (ProcessingQueue.formatPhone (phone c)) "").

(** Whether the send of [c], begun in state [w], gets its window: the
    phone has a digit and the browser opens the link. *)
Definition answer (E : Env) (c : Candidate) (w : App.state) : bool :=
  hasDigits c
  && window_open E (opened (App.trace w))
       (ProcessingQueue.whatsAppUrl (ProcessingQueue.finalMessage w) c).


(** An observed effect other than a status update. *)
Definition isEffect (e : event) : Prop :=
  match e with
  | StatusSet _ _ => False
  | _ => True
  end.

(** The request that mirrors a status call. *)
Definition mirror (call : string * status) : request := Update (fst call) (snd call).

(** The store never answers with the schema-absent error. *)
Definition schemaPresent (E : Env) : Prop :=
  forall before rq e, error (supabase E before rq) = Some e ->
                      DbService.missingTable e = false.

(** The first character of [s] is no whitespace. *)
Definition startsTidy (s : string) : Prop :=
  exists c r, s = String c r /\ Js.isWhiteSpace c = false.

(** The last character of [s] is no whitespace. *)
Definition endsTidy (s : string) : Prop :=
  exists r c, s = r +:+ String c "" /\ Js.isWhiteSpace c = false.


(** A character that needs no escape in a URL component, or the percent
    sign of an escape. *)
Definition urlSafe (c : ascii) : Prop := Js.uriUnreserved c = true \/ c = "%"%char.

End Observed.
Export Observed.

(* ===================================================================== *)
(** ** More sample inputs *)
(* ===================================================================== *)

Module MoreSamples.

Definition q : string := String CsvService.quote "".
Definition newline : string := String CsvService.LF "".

(** Three fields: one with a comma, one with quotes, one empty. *)
Definition awkwardFields : list string :=
  ["Lee, Ann"; "say " +:+ q +:+ "hi" +:+ q; ""].

(** A file of a header line, a data line, a blank line and a data line
    that is one cell short. *)
Definition smallCsv : string :=
  "Name, Phone ,Role" +:+ newline +:+ "Bob,12,Dev" +:+ newline +:+ "  " +:+ newline
    +:+ " Ann Lee ,+1 (555) 012-3456".

Definition csvFile : FileUpload.File :=
  {| FileUpload.fname := "candidates.csv"; FileUpload.text := smallCsv |}.

(** The same content under a name in capitals. *)
Definition shoutedFile : FileUpload.File :=
  {| FileUpload.fname := "CANDIDATES.CSV"; FileUpload.text := smallCsv |}.

Definition headerOnlyFile : FileUpload.File :=
  {| FileUpload.fname := "empty.csv"; FileUpload.text := "Name,Phone" +:+ newline |}.

Definition noExcel : FileUpload.File -> option (list Row) := fun _ => None.

(** An environment whose store cannot be reached. *)
Definition networkDown : pgError :=
  {| code := ""; message := "TypeError: Failed to fetch" |}.

Definition unreachableEnv : Env :=
  {| API_KEY := None;
     generateMapping := fun _ _ => Rejects;
     generateTone := fun _ _ => Rejects;
     JSON_parse := fun _ => None;
     supabase := fun _ _ => {| data := None; error := Some networkDown |};
     window_open := fun _ _ => true;
     Date_now := fun _ => 1700000000000%N |}.

End MoreSamples.

(* ===================================================================== *)
(** * Properties *)
(* ===================================================================== *)

(** ** Strings *)

Lemma append_nil_l (s : string) : "" +:+ s = s.
Proof. reflexivity. Qed.

Lemma append_cons (c : ascii) (a b : string) : String c a +:+ b = String c (a +:+ b).
Proof. reflexivity. Qed.

Lemma append_nil_r (s : string) : s +:+ "" = s.
Proof.
  induction s as [|c s IH]; [reflexivity|].
  now rewrite append_cons, IH.
Qed.

Lemma append_assoc (a b c : string) : (a +:+ b) +:+ c = a +:+ (b +:+ c).
Proof.
  induction a as [|x a IH]; [reflexivity|].
  now rewrite !append_cons, IH.
Qed.

Lemma list_of_append (a b : string) :
  list_ascii_of_string (a +:+ b) = list_ascii_of_string a ++ list_ascii_of_string b.
Proof.
  induction a as [|x a IH]; [reflexivity|].
  rewrite append_cons; simpl; now rewrite IH.
Qed.

(** Deleting the matches of a one-character class keeps the other
    characters, in order. *)
Lemma replaceScan_class_delete (cls : ascii -> bool) (before s : string) :
  list_ascii_of_string (Js.replaceScan (Js.charClass cls) "" 0 before s)
  = List.filter (fun c => negb (cls c)) (list_ascii_of_string s).
Proof.
  revert before; induction s as [|c r IH]; intros before; simpl; [reflexivity|].
  destruct (cls c); simpl; rewrite ?append_nil_l; now rewrite IH.
Qed.

Lemma formatPhone_filter (p : string) :
  list_ascii_of_string (ProcessingQueue.formatPhone p)
  = List.filter Js.isDigit (list_ascii_of_string p).
Proof.
  unfold ProcessingQueue.formatPhone, Js.replaceAll.
  rewrite replaceScan_class_delete.
  apply List.filter_ext; intros c; now rewrite negb_involutive.
Qed.

(** ** The trace grows by appending *)

Section TraceFacts.
Variable E : Env.


Lemma candidates_handleUpdateStatus cid st w :
  App.candidates (App.handleUpdateStatus E cid st w)
  = App.updateRoster cid st (App.candidates w).
Proof. reflexivity. Qed.


End TraceFacts.

(** ** Outreach link construction *)

(** C5. Link construction keeps exactly the digits of the phone, in
    order; "+1 (555) 012-3456" gives "15550123456"; and when no digit is
    left the attempt fails without any window being opened, in a single
    send and in a turn of the bulk loop alike. *)
Theorem link_construction_digits_only (E : Env) (c : Candidate) (w : App.state) :
  list_ascii_of_string (ProcessingQueue.formatPhone (phone c))
    = List.filter Js.isDigit (list_ascii_of_string (phone c))
  /\ ProcessingQueue.formatPhone "+1 (555) 012-3456" = "15550123456"
  /\ (ProcessingQueue.formatPhone (phone c) = "" ->
      ProcessingQueue.openWhatsApp E c w = (false, w)
      /\ opened (App.trace (ProcessingQueue.executeSend E c w)) = opened (App.trace w)
      /\ opened (App.trace (ProcessingQueue.processOne E c w)) = opened (App.trace w)
      /\ statusCalls (App.trace (ProcessingQueue.executeSend E c w))
         = statusCalls (App.trace w) ++ [(id c, sending); (id c, failed)]
      /\ statusCalls (App.trace (ProcessingQueue.processOne E c w))
         = statusCalls (App.trace w) ++ [(id c, sending); (id c, failed)]).
Proof.
  split; [apply formatPhone_filter|].
  split; [vm_compute; reflexivity|].
  intros Hempty.
  assert (Hopen : forall w0, ProcessingQueue.openWhatsApp E c w0 = (false, w0)).
  { intros w0. unfold ProcessingQueue.openWhatsApp. now rewrite Hempty. }
  split; [apply Hopen|].
  unfold ProcessingQueue.executeSend, ProcessingQueue.processOne.
  rewrite !Hopen. cbn [App.trace App.emit App.handleUpdateStatus App.setCandidates App.withDb].
  unfold opened, statusCalls.
  rewrite !flat_map_app. cbn [flat_map List.app].
  rewrite !app_nil_r, <- !app_assoc. cbn [List.app].
  repeat split; reflexivity.
Qed.

Lemma link_construction_digits_only_witness :
  ProcessingQueue.openWhatsApp Samples.quietEnv Samples.noDigits
    (Samples.withRoster [Samples.noDigits])
  = (false, Samples.withRoster [Samples.noDigits]).
Proof.
  apply (proj2 (proj2 (link_construction_digits_only Samples.quietEnv Samples.noDigits
                         (Samples.withRoster [Samples.noDigits])))).
  vm_compute. reflexivity.
Defined.


(** ** The sequential bulk dispatcher *)


Lemma NoDup_ids_filter (p : Candidate -> bool) cs :
  List.NoDup (List.map id cs) -> List.NoDup (List.map id (List.filter p cs)).
Proof.
  induction cs as [|c cs IH]; simpl; intros H; [constructor|].
  inversion H as [|? ? Hnotin Hnd]; subst.
  destruct (p c); simpl; [constructor|]; auto.
  intros Hin. apply Hnotin.
  apply in_map_iff in Hin as [c2 [Heq Hin2]].
  apply filter_In in Hin2 as [Hin2 _].
  apply in_map_iff. now exists c2.
Qed.




Section Dispatcher.
Variable E : Env.




Lemma updateRoster_twice cid st1 st2 cs :
  App.updateRoster cid st2 (App.updateRoster cid st1 cs)
  = List.map (fun c => if String.eqb (id c) cid then App.withStatus st2 c else c) cs.
Proof.
  unfold App.updateRoster. rewrite List.map_map. apply List.map_ext; intros c.
  destruct (String.eqb (id c) cid) eqn:Heq; simpl; now rewrite Heq.
Qed.




End Dispatcher.


(** ** Status changes, call by call *)

Lemma skipn_app_length {A} (a b : list A) : List.skipn (List.length a) (a ++ b) = b.
Proof. induction a as [|x a IH]; simpl; auto. Qed.

Lemma newCalls_exact w w' calls :
  statusCalls (App.trace w') = statusCalls (App.trace w) ++ calls ->
  newCalls w w' = calls.
Proof. intros H. unfold newCalls. rewrite H. apply skipn_app_length. Qed.





Section Chains.
Variable R : status -> status -> Prop.




End Chains.

(** ** The operations of the workflow, one by one *)

Section Operations.
Variable E : Env.

Lemma run_SingleSend c q w :
  snd (run E (SingleSend c) q w) = ProcessingQueue.executeSend E c w.
Proof. reflexivity. Qed.

Lemma run_Retry c q w :
  snd (run E (Retry c) q w) = ProcessingQueue.executeSend E c w.
Proof. reflexivity. Qed.









End Operations.

Ltac distinct_ids :=
  simpl; repeat (constructor; [simpl; intuition discriminate|]); constructor.


(** ** The transition table *)




(** ** The Selection Set *)

Lemma idle_bobTicked : idle Samples.bobTicked.
Proof. repeat split. Qed.

Lemma size_bobTicked : 0 < size (ProcessingQueue.selectedIds Samples.bobTicked).
Proof.
  change (0 < size ({[ "c-1-1" ]} : gset string)).
  rewrite size_singleton. lia.
Qed.

(** C10, as the code has it. Bulk-skip, bulk-retry and a bulk send over
    the Selection Set leave the Selection Set empty; a bulk send over
    "all pending" leaves it as it was, and so do the operations on a
    single row; replacing the roster (Start Over, or a new upload)
    unmounts the queue, so nothing is selected afterwards. *)
Theorem selection_after_operations
  (E : Env) (op : operation) (q : ProcessingQueue.state) (w : App.state)
  (p : Page.state) (rawData : list Row) :
  (offered op q w ->
   match op with
   | BulkSkip | BulkRetry | BulkSendSelected =>
       ProcessingQueue.selectedIds (fst (run E op q w)) = ∅
   | BulkSendAll | SingleSend _ | Retry _ | Skip _ =>
       ProcessingQueue.selectedIds (fst (run E op q w)) = ProcessingQueue.selectedIds q
   end)
  /\ Page.selection (Page.appHandler (App.handleReset E) p) = ∅
  /\ (rawData <> [] ->
      Page.selection (Page.appHandler (App.handleDataLoaded E rawData) p) = ∅).
Proof.
  split; [|split].
  - intros [[_ [Hshow _]] Hop].
    destruct op as [c|c|c| | | |]; try reflexivity.
    + (* all pending *)
      unfold run, ProcessingQueue.handleBulkSendClick.
      destruct (Nat.eqb (ProcessingQueue.pendingCount (App.candidates w)) 0).
      * unfold confirmIfShown. now rewrite Hshow.
      * reflexivity.
    + (* the selection *)
      unfold run, ProcessingQueue.handleSelectedSendClick.
      destruct (Nat.eqb_spec (size (ProcessingQueue.selectedIds q)) 0) as [H0|_]; [lia|].
      reflexivity.
  - reflexivity.
  - intros Hrows. destruct rawData as [|first rest]; [congruence|]. reflexivity.
Qed.

Lemma selection_after_operations_witness :
  ProcessingQueue.selectedIds
    (fst (run Samples.quietEnv BulkSkip Samples.bobTicked
            (Samples.withRoster Samples.roster3))) = ∅
  /\ Page.selection (Page.appHandler (App.handleDataLoaded Samples.quietEnv
                                         [Samples.bobRow; Samples.annRow])
                        Samples.queuePage) = ∅.
Proof.
  pose proof (selection_after_operations Samples.quietEnv BulkSkip Samples.bobTicked
                (Samples.withRoster Samples.roster3) Samples.queuePage
                [Samples.bobRow; Samples.annRow]) as [Hop [_ Hupload]].
  split.
  - apply Hop. split; [exact idle_bobTicked | exact size_bobTicked].
  - apply Hupload. discriminate.
Defined.

(** C10 fails as stated: with Bob's row ticked, "Send to All Pending"
    runs to the end and Bob's id is still selected. *)
Lemma send_all_keeps_selection :
  offered BulkSendAll Samples.bobTicked (Samples.withRoster Samples.roster3)
  /\ ProcessingQueue.bulkActionType
       (ProcessingQueue.handleBulkSendClick Samples.bobTicked
          (Samples.withRoster Samples.roster3)) = Some ProcessingQueue.all
  /\ ProcessingQueue.selectedIds
       (fst (run Samples.quietEnv BulkSendAll Samples.bobTicked
               (Samples.withRoster Samples.roster3))) = {[ "c-1-1" ]}
  /\ ProcessingQueue.selectedIds
       (fst (run Samples.quietEnv BulkSendAll Samples.bobTicked
               (Samples.withRoster Samples.roster3))) <> ∅.
Proof.
  split; [split; [exact idle_bobTicked | exact I]|].
  split; [reflexivity|].
  split; [reflexivity|].
  change (({[ "c-1-1" ]} : gset string) <> ∅).
  intros H. assert (Hin : "c-1-1" ∈ ({[ "c-1-1" ]} : gset string)) by set_solver.
  rewrite H in Hin. set_solver.
Qed.

(** ** Roster construction *)

Lemma candidates_handleDataLoaded E first rest w :
  App.candidates (App.handleDataLoaded E (first :: rest) w)
  = App.mappedCandidates E
      (GeminiService.analyzeCsvHeaders E (List.map fst first) first) (first :: rest).
Proof. reflexivity. Qed.

Lemma In_mappedCandidates E mapping (rawData : list Row) (c : Candidate) :
  List.In c (App.mappedCandidates E mapping rawData)
  <-> (exists idx row, rawData !! idx = Some row /\ c = App.mapCandidate E mapping idx row)
      /\ 5 < String.length (phone c).
Proof.
  unfold App.mappedCandidates. rewrite filter_In, <- list_elem_of_In, elem_of_lookup_imap.
  rewrite Nat.ltb_lt.
  split; intros [[idx [row H]] Hlen]; (split; [exists idx, row; tauto | exact Hlen]).
Qed.

Example short_phone_example :
  App.candidates (App.handleDataLoaded Samples.quietEnv [Samples.bobRow; Samples.annRow]
                    App.initial)
  = [ {| id := "c-1700000000000-1"; name := "Ann Lee"; phone := "+1 (555) 012-3456";
         originalRow := Samples.annRow; cstatus := pending |} ].
Proof. vm_compute. reflexivity. Qed.

(** C3, as the code has it. The roster keeps, in upload order, the rows
    whose mapped phone value has more than 5 characters as read: a row is
    excluded exactly when the value, before any normalization, has fewer
    than 6 characters. For the rows {Name: "Bob", Phone: "12"} and one
    valid row, mapped by the Name and Phone columns, the roster has
    length 1; so it has when the mapping collaborator is unavailable. *)
Theorem roster_excludes_short_raw_phones
  (E : Env) (mapping : GeminiMappingResponse) (rawData : list Row)
  (idx : nat) (row valid : Row) (w : App.state) :
  (rawData !! idx = Some row ->
   (List.In (App.mapCandidate E mapping idx row) (App.mappedCandidates E mapping rawData)
    <-> 5 < String.length (orText (App.rowGet row (phone_column mapping)) "")))
  /\ (forall c, List.In c (App.mappedCandidates E mapping rawData) ->
                5 < String.length (phone c))
  /\ (phone_column mapping = Some "Phone" ->
      5 < String.length (orText (App.rowGet valid (Some "Phone")) "") ->
      List.length (App.mappedCandidates E mapping [Samples.bobRow; valid]) = 1)
  /\ (API_KEY E = None ->
      5 < String.length (orText (App.rowGet valid (Some "Phone")) "") ->
      List.length (App.candidates (App.handleDataLoaded E [Samples.bobRow; valid] w)) = 1).
Proof.
  assert (Hex : forall m, phone_column m = Some "Phone" ->
                5 < String.length (orText (App.rowGet valid (Some "Phone")) "") ->
                List.length (App.mappedCandidates E m [Samples.bobRow; valid]) = 1).
  { intros m Hcol Hlen. unfold App.mappedCandidates. simpl imap. simpl List.filter.
    rewrite Hcol. simpl (App.rowGet Samples.bobRow _). simpl (orText (Some "12") _).
    simpl (5 <? String.length "12")%nat. cbv iota.
    apply Nat.ltb_lt in Hlen. rewrite Hlen. reflexivity. }
  split; [|split; [|split]].
  - intros Hrow. rewrite In_mappedCandidates. simpl phone. split.
    + tauto.
    + intros Hlen. split; [exists idx, row; auto | exact Hlen].
  - intros c Hc. now apply In_mappedCandidates in Hc.
  - apply Hex.
  - intros Hkey Hlen. rewrite candidates_handleDataLoaded. apply Hex; [|exact Hlen].
    unfold GeminiService.analyzeCsvHeaders, GeminiService.askMapping,
      GeminiService.getClient. rewrite Hkey. reflexivity.
Qed.

Lemma roster_excludes_short_raw_phones_witness :
  ~ List.In (App.mapCandidate Samples.quietEnv Samples.byNameAndPhone 0 Samples.bobRow)
            (App.mappedCandidates Samples.quietEnv Samples.byNameAndPhone
               [Samples.bobRow; Samples.annRow])
  /\ List.length (App.mappedCandidates Samples.quietEnv Samples.byNameAndPhone
                    [Samples.bobRow; Samples.annRow]) = 1
  /\ List.length (App.candidates
                    (App.handleDataLoaded Samples.quietEnv
                       [Samples.bobRow; Samples.annRow] App.initial)) = 1.
Proof.
  pose proof (roster_excludes_short_raw_phones Samples.quietEnv Samples.byNameAndPhone
                [Samples.bobRow; Samples.annRow] 0 Samples.bobRow Samples.annRow
                App.initial) as [Hrow [_ [Hmapped Hloaded]]].
  split; [|split].
  - intros Hin. apply Hrow in Hin; [|reflexivity]. vm_compute in Hin. lia.
  - apply Hmapped; [reflexivity | vm_compute; lia].
  - apply Hloaded; [reflexivity | vm_compute; lia].
Defined.

(** C3 fails as stated: the phone "+1-2-3-4" has four characters once
    the non-digits are stripped, and its row is in the roster. *)
Lemma short_after_stripping_is_kept :
  String.length (ProcessingQueue.formatPhone "+1-2-3-4") = 4
  /\ App.candidates (App.handleDataLoaded Samples.quietEnv [Samples.deeRow] App.initial)
     = [ {| id := "c-1700000000000-0"; name := "Dee"; phone := "+1-2-3-4";
            originalRow := Samples.deeRow; cstatus := pending |} ].
Proof. split; vm_compute; reflexivity. Qed.

(** ** Statuses of a fresh roster *)

Lemma loadCandidates_restores E w rows :
  supabase E (DbService.requests (App.db w)) Select
    = {| data := Some rows; error := None |} ->
  rows <> [] ->
  App.candidates (App.loadCandidates E w) = List.map DbService.mapRow rows
  /\ App.step (App.loadCandidates E w) = QUEUE.
Proof.
  intros Hresp Hrows.
  unfold App.loadCandidates, DbService.getAllCandidates, DbService.send.
  rewrite Hresp. cbn [error data].
  destruct rows as [|r rows]; [congruence|].
  split; reflexivity.
Qed.

(** C4, as the code has it. Every candidate of a roster built from an
    upload is pending. A roster restored from the store at startup holds,
    row by row, the status the store has for it (pending when it has
    none); it contains a sending candidate exactly when the store holds
    a row whose status is sending. *)
Theorem fresh_roster_statuses
  (E : Env) (rawData : list Row) (w : App.state) (rows : list dbRow) :
  (rawData <> [] ->
   List.Forall (fun c => cstatus c = pending)
               (App.candidates (App.handleDataLoaded E rawData w)))
  /\ (supabase E (DbService.requests (App.db w)) Select
        = {| data := Some rows; error := None |} ->
      rows <> [] ->
      App.candidates (App.loadCandidates E w) = List.map DbService.mapRow rows
      /\ List.Forall2
           (fun r c => cstatus c = match row_status r with
                                   | Some st => st
                                   | None => pending
                                   end)
           rows (App.candidates (App.loadCandidates E w))
      /\ ((exists c, List.In c (App.candidates (App.loadCandidates E w))
                     /\ cstatus c = sending)
          <-> (exists r, List.In r rows /\ row_status r = Some sending))).
Proof.
  split.
  - intros Hrows. destruct rawData as [|first rest]; [congruence|].
    rewrite candidates_handleDataLoaded. apply List.Forall_forall. intros c Hc.
    apply In_mappedCandidates in Hc as [[idx [row [_ ->]]] _]. reflexivity.
  - intros Hresp Hrows.
    destruct (loadCandidates_restores E w rows Hresp Hrows) as [-> _].
    split; [reflexivity|]. split.
    + clear. induction rows as [|r rows IH]; simpl; constructor; auto.
    + split.
      * intros [c [Hin Hst]]. apply in_map_iff in Hin as [r [<- Hr]].
        exists r. split; [exact Hr|].
        simpl in Hst. destruct (row_status r) as [st|]; congruence.
      * intros [r [Hr Hst]]. exists (DbService.mapRow r).
        split; [now apply in_map|]. simpl. now rewrite Hst.
Qed.

Lemma fresh_roster_statuses_witness :
  List.Forall (fun c => cstatus c = pending)
    (App.candidates (App.handleDataLoaded Samples.quietEnv
                       [Samples.bobRow; Samples.annRow] App.initial))
  /\ App.candidates (App.loadCandidates Samples.storeEnv Samples.restart)
     = List.map DbService.mapRow [Samples.annStored].
Proof.
  split.
  - apply (proj1 (fresh_roster_statuses Samples.quietEnv [Samples.bobRow; Samples.annRow]
                    App.initial [])).
    discriminate.
  - apply (proj2 (fresh_roster_statuses Samples.storeEnv [] Samples.restart
                    [Samples.annStored])).
    + vm_compute. reflexivity.
    + discriminate.
Defined.

(** C4 fails as stated: a session sets Ann to sending, which the adapter
    writes to the store, and is closed before the attempt resolves; the
    next load restores her as sending. *)
Lemma restored_roster_contains_sending :
  Samples.interrupted
  = App.handleUpdateStatus Samples.storeEnv "c-1700000000000-0" sending
      (App.handleDataLoaded Samples.storeEnv [Samples.annRow] App.initial)
  /\ App.candidates Samples.reloaded
     = [ {| id := "c-1700000000000-0"; name := "Ann Lee"; phone := "+1 (555) 012-3456";
            originalRow := Samples.annRow; cstatus := sending |} ]
  /\ App.step Samples.reloaded = QUEUE.
Proof. split; [reflexivity|]. split; vm_compute; reflexivity. Qed.

(** ** The persistence adapter's offline mode *)

Section Offline.
Variable E : Env.

Lemma afterWrite_absent rq s :
  DbService.schemaAbsent E s rq ->
  DbService.isOfflineMode (DbService.afterWrite (DbService.send E rq s)) = true.
Proof.
  intros [e [He Hm]]. unfold DbService.afterWrite, DbService.send.
  rewrite He, Hm. reflexivity.
Qed.

Lemma afterWrite_keeps_offline rq s :
  DbService.isOfflineMode s = true ->
  DbService.isOfflineMode (DbService.afterWrite (DbService.send E rq s)) = true.
Proof.
  intros Hoff. unfold DbService.afterWrite, DbService.send.
  destruct (error (supabase E (DbService.requests s) rq)) as [e|]; [|exact Hoff].
  destruct (DbService.missingTable e); [reflexivity | exact Hoff].
Qed.

Lemma getAllCandidates_absent s :
  DbService.schemaAbsent E s Select ->
  fst (DbService.getAllCandidates E s) = ([], Some "missing_table")
  /\ DbService.isOfflineMode (snd (DbService.getAllCandidates E s)) = true.
Proof.
  intros [e [He Hm]]. unfold DbService.getAllCandidates, DbService.send.
  rewrite He, Hm. split; reflexivity.
Qed.

Lemma getAllCandidates_keeps_offline s :
  DbService.isOfflineMode s = true ->
  DbService.isOfflineMode (snd (DbService.getAllCandidates E s)) = true.
Proof.
  intros Hoff. unfold DbService.getAllCandidates, DbService.send.
  destruct (error (supabase E (DbService.requests s) Select)) as [e|].
  - destruct (DbService.missingTable e); [reflexivity | exact Hoff].
  - destruct (data (supabase E (DbService.requests s) Select)); exact Hoff.
Qed.

Lemma retryConnection_true s :
  fst (DbService.retryConnection E s) = true ->
  DbService.isOfflineMode (snd (DbService.retryConnection E s)) = false.
Proof.
  unfold DbService.retryConnection, DbService.getAllCandidates, DbService.send.
  cbn [DbService.setOffline DbService.requests DbService.isOfflineMode].
  destruct (error (supabase E (DbService.requests s) Select)) as [e|].
  - destruct (DbService.missingTable e); simpl; [discriminate | reflexivity].
  - destruct (data (supabase E (DbService.requests s) Select)); reflexivity.
Qed.

Lemma retryConnection_absent s :
  DbService.schemaAbsent E s Select ->
  DbService.retryConnection E s
  = (false, {| DbService.isOfflineMode := true;
               DbService.requests := DbService.requests s ++ [Select] |}).
Proof.
  intros [e [He Hm]].
  unfold DbService.retryConnection, DbService.getAllCandidates, DbService.send.
  cbn [DbService.setOffline DbService.requests DbService.isOfflineMode].
  rewrite He, Hm. reflexivity.
Qed.

End Offline.

(** C9, as the code has it. An operation that gets the schema-absent
    error from the store leaves the adapter in offline mode. In offline
    mode addCandidates, updateStatus and clearCandidates return at once:
    the flag and the list of requests sent are unchanged. getAllCandidates
    does not look at the flag: it asks the store every time, answers with
    the empty list and "missing_table" whenever the store reports the
    schema absent, and never takes the adapter out of offline mode. Only
    retryConnection clears the flag: when it returns true the adapter is
    online, and when the store still reports the schema absent it returns
    false and the adapter is offline again. *)
Theorem offline_mode_contract
  (E : Env) (s : DbService.state) (cs : list Candidate) (cid : string) (st : status) :
  (DbService.schemaAbsent E s Select ->
   fst (DbService.getAllCandidates E s) = ([], Some "missing_table")
   /\ DbService.isOfflineMode (snd (DbService.getAllCandidates E s)) = true)
  /\ (DbService.isOfflineMode s = false -> cs <> [] ->
      DbService.schemaAbsent E s (Upsert (List.map DbService.toRow cs)) ->
      DbService.isOfflineMode (DbService.addCandidates E cs s) = true)
  /\ (DbService.isOfflineMode s = false ->
      DbService.schemaAbsent E s (Update cid st) ->
      DbService.isOfflineMode (DbService.updateStatus E cid st s) = true)
  /\ (DbService.isOfflineMode s = false ->
      DbService.schemaAbsent E s DeleteAll ->
      DbService.isOfflineMode (DbService.clearCandidates E s) = true)
  /\ (DbService.isOfflineMode s = true ->
      DbService.addCandidates E cs s = s
      /\ DbService.updateStatus E cid st s = s
      /\ DbService.clearCandidates E s = s
      /\ DbService.isOfflineMode (snd (DbService.getAllCandidates E s)) = true)
  /\ (fst (DbService.retryConnection E s) = true ->
      DbService.isOfflineMode (snd (DbService.retryConnection E s)) = false)
  /\ (DbService.schemaAbsent E s Select ->
      fst (DbService.retryConnection E s) = false
      /\ DbService.isOfflineMode (snd (DbService.retryConnection E s)) = true).
Proof.
  split; [apply getAllCandidates_absent|].
  split.
  { intros Hon Hcs Habs. unfold DbService.addCandidates. rewrite Hon.
    destruct cs as [|c cs']; [congruence|]. simpl orb. cbv iota.
    now apply afterWrite_absent. }
  split.
  { intros Hon Habs. unfold DbService.updateStatus. rewrite Hon.
    now apply afterWrite_absent. }
  split.
  { intros Hon Habs. unfold DbService.clearCandidates. rewrite Hon.
    now apply afterWrite_absent. }
  split.
  { intros Hoff.
    unfold DbService.addCandidates, DbService.updateStatus, DbService.clearCandidates.
    rewrite Hoff. repeat split. now apply getAllCandidates_keeps_offline. }
  split; [apply retryConnection_true|].
  intros Habs. now rewrite (retryConnection_absent E s Habs).
Qed.

Lemma offline_mode_contract_witness :
  (fst (DbService.getAllCandidates Samples.noTableEnv DbService.initial)
     = ([], Some "missing_table")
   /\ DbService.isOfflineMode
        (snd (DbService.getAllCandidates Samples.noTableEnv DbService.initial)) = true)
  /\ DbService.isOfflineMode
       (DbService.addCandidates Samples.noTableEnv [Samples.ann] DbService.initial) = true
  /\ DbService.isOfflineMode
       (DbService.updateStatus Samples.noTableEnv "c-1-0" sent DbService.initial) = true
  /\ DbService.isOfflineMode
       (DbService.clearCandidates Samples.noTableEnv DbService.initial) = true
  /\ DbService.updateStatus Samples.quietEnv "c-1-0" sent Samples.offlineDb
     = Samples.offlineDb
  /\ DbService.isOfflineMode
       (snd (DbService.retryConnection Samples.quietEnv Samples.offlineDb)) = false
  /\ fst (DbService.retryConnection Samples.noTableEnv Samples.offlineDb) = false.
Proof.
  pose proof (offline_mode_contract Samples.noTableEnv DbService.initial [Samples.ann]
                "c-1-0" sent) as [Hlist [Hadd [Hupd [Hclr _]]]].
  pose proof (offline_mode_contract Samples.quietEnv Samples.offlineDb [Samples.ann]
                "c-1-0" sent) as [_ [_ [_ [_ [Hoff [Hretry _]]]]]].
  pose proof (offline_mode_contract Samples.noTableEnv Samples.offlineDb [Samples.ann]
                "c-1-0" sent) as [_ [_ [_ [_ [_ [_ Hstill]]]]]].
  split; [apply Hlist; eexists; split; reflexivity|].
  split; [apply Hadd; [reflexivity | discriminate | eexists; split; reflexivity]|].
  split; [apply Hupd; [reflexivity | eexists; split; reflexivity]|].
  split; [apply Hclr; [reflexivity | eexists; split; reflexivity]|].
  split; [apply Hoff; reflexivity|].
  split; [apply Hretry; reflexivity|].
  apply Hstill; eexists; split; reflexivity.
Defined.

(** C9 fails as stated: the adapter is in offline mode and the table has
    been created since; getAllCandidates asks the store all the same and
    answers without the offline indicator, with the rows of the table
    when it has some, and the adapter is still in offline mode. *)
Lemma offline_list_asks_the_store :
  DbService.isOfflineMode Samples.offlineDb = true
  /\ DbService.getAllCandidates Samples.quietEnv Samples.offlineDb
     = (([], None),
        {| DbService.isOfflineMode := true; DbService.requests := [Select; Select] |})
  /\ fst (DbService.getAllCandidates Samples.storeEnv
            {| DbService.isOfflineMode := true;
               DbService.requests := DbService.requests (App.db Samples.interrupted) |})
     = ([ {| id := "c-1700000000000-0"; name := "Ann Lee"; phone := "+1 (555) 012-3456";
             originalRow := Samples.annRow; cstatus := sending |} ], None).
Proof. split; [reflexivity|]. split; vm_compute; reflexivity. Qed.

(** ** The column-mapping fallback *)

Lemma startsWith_spec p s : Js.startsWith p s = true <-> exists b, s = p +:+ b.
Proof.
  revert s; induction p as [|a p IH]; intros s; simpl.
  - split; [intros _; now exists s | reflexivity].
  - destruct s as [|c s]; simpl.
    + split; [discriminate | intros [b Hb]; discriminate].
    + rewrite andb_true_iff, IH. split.
      * intros [Hac [b ->]]. apply Ascii.eqb_eq in Hac. subst. now exists b.
      * intros [b Hb]. rewrite append_cons in Hb. inversion Hb; subst.
        split; [apply Ascii.eqb_refl | now exists b].
Qed.

Lemma includes_spec s sub :
  Js.includes s sub = true <-> exists a b, s = a +:+ sub +:+ b.
Proof.
  induction s as [|c s IH]; simpl.
  - rewrite orb_false_r, startsWith_spec. split.
    + intros [b Hb]. now exists "", b.
    + intros [a [b Hab]]. destruct a; [now exists b | discriminate].
  - rewrite orb_true_iff, startsWith_spec, IH. split.
    + intros [[b Hb] | [a [b Hab]]].
      * now exists "", b.
      * exists (String c a), b. now rewrite append_cons, Hab.
    + intros [a [b Hab]]. destruct a as [|x a].
      * left. now exists b.
      * right. rewrite append_cons in Hab. inversion Hab; subst. now exists a, b.
Qed.

Lemma toLowerCase_app a b :
  Js.toLowerCase (a +:+ b) = Js.toLowerCase a +:+ Js.toLowerCase b.
Proof.
  induction a as [|c a IH]; [reflexivity|].
  rewrite append_cons. simpl. now rewrite IH, append_cons.
Qed.

Lemma toLowerCase_split h : forall x y,
  Js.toLowerCase h = x +:+ y ->
  exists h1 h2, h = h1 +:+ h2 /\ Js.toLowerCase h1 = x /\ Js.toLowerCase h2 = y.
Proof.
  induction h as [|c h IH]; intros x y Hxy; simpl in Hxy.
  - destruct x; [|discriminate]. destruct y; [|discriminate].
    now exists "", "".
  - destruct x as [|d x].
    + exists "", (String c h). now rewrite append_nil_l in Hxy.
    + rewrite append_cons in Hxy. inversion Hxy as [[Hd Hrest]].
      destruct (IH _ _ Hrest) as [h1 [h2 [-> [H1 H2]]]].
      exists (String c h1), h2. rewrite append_cons. simpl. now rewrite H1.
Qed.

(** The test of the fallback is containment up to case. *)
Lemma includes_lower_iff h w :
  Js.includes (Js.toLowerCase h) w = true <-> GeminiService.containsCI h w.
Proof.
  rewrite includes_spec. unfold GeminiService.containsCI. split.
  - intros [a [b Hab]].
    destruct (toLowerCase_split _ _ _ Hab) as [h1 [h23 [-> [H1 H23]]]].
    destruct (toLowerCase_split _ _ _ H23) as [h2 [h3 [-> [H2 H3]]]].
    now exists h1, h2, h3.
  - intros [a [m [b [-> Hm]]]].
    exists (Js.toLowerCase a), (Js.toLowerCase b).
    now rewrite !toLowerCase_app, Hm.
Qed.

Lemma find_first (f : string -> bool) (l : list string) :
  match List.find f l with
  | Some h => exists pre post, l = pre ++ h :: post /\ f h = true
                               /\ List.Forall (fun x => f x = false) pre
  | None => List.Forall (fun x => f x = false) l
  end.
Proof.
  induction l as [|x l IH]; simpl; [constructor|].
  destruct (f x) eqn:Hx.
  - exists [], l. repeat split; [exact Hx | constructor].
  - destruct (List.find f l) as [h|].
    + destruct IH as [pre [post [-> [Hh Hpre]]]].
      exists (x :: pre), post. repeat split; [exact Hh | now constructor].
    + now constructor.
Qed.

Lemma orElse_find (f : string -> bool) (P : string -> Prop) dflt headers :
  (forall h, f h = true <-> P h) ->
  f "" = false ->
  GeminiService.firstWithOr P dflt headers
    (orElse (List.find f headers) (nth_error headers dflt)).
Proof.
  intros HfP Hempty.
  assert (Hnot : forall l, List.Forall (fun x => f x = false) l ->
                           List.Forall (fun x => ~ P x) l).
  { intros l Hl. eapply List.Forall_impl; [|exact Hl].
    intros x Hx HP. apply HfP in HP. congruence. }
  pose proof (find_first f headers) as Hfind.
  destruct (List.find f headers) as [h|].
  - destruct Hfind as [pre [post [Hsplit [Hh Hpre]]]].
    left. exists h. split.
    + destruct h; [congruence | reflexivity].
    + exists pre, post. split; [exact Hsplit|]. split; [now apply HfP | now apply Hnot].
  - right. split; [now apply Hnot | reflexivity].
Qed.




(** ** Message composition *)

Lemma allWhiteSpace_app a b :
  Js.allWhiteSpace (a +:+ b) = Js.allWhiteSpace a && Js.allWhiteSpace b.
Proof.
  induction a as [|c a IH]; [reflexivity|].
  rewrite append_cons. simpl. now rewrite IH, andb_assoc.
Qed.

Lemma trimEnd_cons c r :
  Js.trimEnd (String c r)
  = if Js.allWhiteSpace (String c r) then "" else String c (Js.trimEnd r).
Proof. reflexivity. Qed.

Lemma allWhiteSpace_cons c r :
  Js.allWhiteSpace (String c r) = Js.isWhiteSpace c && Js.allWhiteSpace r.
Proof. reflexivity. Qed.

Lemma trimStart_cons c r :
  Js.trimStart (String c r) = if Js.isWhiteSpace c then Js.trimStart r else String c r.
Proof. reflexivity. Qed.

Lemma trimEnd_suffix z b :
  Js.allWhiteSpace b = true -> Js.trimEnd (z +:+ b) = Js.trimEnd z.
Proof.
  intros Hb. induction z as [|c z IH].
  - rewrite append_nil_l. destruct b as [|d b]; [reflexivity|].
    now rewrite trimEnd_cons, Hb.
  - rewrite append_cons, !trimEnd_cons, !allWhiteSpace_cons.
    now rewrite allWhiteSpace_app, Hb, andb_true_r, IH.
Qed.

Lemma trimStart_app x y :
  Js.trimStart (x +:+ y)
  = if Js.allWhiteSpace x then Js.trimStart y else Js.trimStart x +:+ y.
Proof.
  induction x as [|c x IH]; [reflexivity|].
  rewrite append_cons, !trimStart_cons, allWhiteSpace_cons.
  destruct (Js.isWhiteSpace c); simpl andb; cbv iota; [exact IH | now rewrite append_cons].
Qed.

Lemma trimStart_all x : Js.allWhiteSpace x = true -> Js.trimStart x = "".
Proof.
  induction x as [|c x IH]; [reflexivity|].
  rewrite allWhiteSpace_cons, trimStart_cons.
  destruct (Js.isWhiteSpace c); simpl; [exact IH | discriminate].
Qed.

(** Whitespace around a text does not change its trimmed form. *)
Lemma trim_padding a x b :
  Js.allWhiteSpace a = true -> Js.allWhiteSpace b = true ->
  Js.trim (a +:+ x +:+ b) = Js.trim x.
Proof.
  intros Ha Hb. unfold Js.trim.
  rewrite trimStart_app, Ha, trimStart_app.
  destruct (Js.allWhiteSpace x) eqn:Hx.
  - now rewrite (trimStart_all b Hb), (trimStart_all x Hx).
  - now apply trimEnd_suffix.
Qed.

Lemma trimStart_head x :
  Js.trimStart x = "" \/ exists c r, Js.trimStart x = String c r /\ Js.isWhiteSpace c = false.
Proof.
  induction x as [|c x IH]; [now left|]. rewrite trimStart_cons.
  destruct (Js.isWhiteSpace c) eqn:Hc; [exact IH|].
  right. now exists c, x.
Qed.

Lemma allWhiteSpace_trimEnd r :
  Js.allWhiteSpace r = false -> Js.allWhiteSpace (Js.trimEnd r) = false.
Proof.
  induction r as [|d r IH]; [discriminate|]. intros H.
  rewrite trimEnd_cons, H. rewrite allWhiteSpace_cons in *.
  destruct (Js.isWhiteSpace d); simpl in *; [now apply IH | reflexivity].
Qed.

Lemma trimEnd_idem s : Js.trimEnd (Js.trimEnd s) = Js.trimEnd s.
Proof.
  induction s as [|c s IH]; [reflexivity|].
  rewrite (trimEnd_cons c s).
  destruct (Js.allWhiteSpace (String c s)) eqn:Hall; [reflexivity|].
  rewrite trimEnd_cons, IH. rewrite allWhiteSpace_cons in *.
  destruct (Js.isWhiteSpace c); simpl in *; [|reflexivity].
  now rewrite (allWhiteSpace_trimEnd s Hall).
Qed.

(** A trimmed text is left alone by [trim]. *)
Lemma trim_idem x : Js.trim (Js.trim x) = Js.trim x.
Proof.
  unfold Js.trim.
  destruct (trimStart_head x) as [-> | [c [r [-> Hc]]]]; [reflexivity|].
  rewrite (trimEnd_cons c r), allWhiteSpace_cons, Hc. simpl andb. cbv iota.
  rewrite trimStart_cons, Hc.
  rewrite trimEnd_cons, allWhiteSpace_cons, Hc. simpl andb. cbv iota.
  now rewrite trimEnd_idem.
Qed.

Lemma splitHead_spec n : Js.upToFirstSpace n (Js.splitHead n).
Proof.
  unfold Js.upToFirstSpace, Js.without.
  induction n as [|c n [Hno Hcases]]; simpl.
  - split; [tauto | now left].
  - destruct (Ascii.eqb_spec c " ") as [-> | Hc].
    + split; [simpl; tauto|]. right. now exists n.
    + split.
      * simpl. intros [Heq | Hin]; [congruence | contradiction].
      * destruct Hcases as [Heq | [rest Hrest]].
        -- left. now rewrite <- Heq.
        -- right. exists rest. now rewrite append_cons, <- Hrest.
Qed.

(** A replacement text without a dollar sign is inserted as it is. *)
Lemma GetSubstitution_plain matched before after repl :
  Js.without "$" repl -> Js.GetSubstitution matched before after repl = repl.
Proof.
  unfold Js.without. induction repl as [|a rest IH]; intros Hno; [reflexivity|].
  simpl in Hno. simpl Js.GetSubstitution.
  destruct (Ascii.eqb_spec a "$") as [-> | Ha]; [tauto|].
  rewrite IH; [reflexivity | tauto].
Qed.

Lemma startsWith_drop p s :
  Js.startsWith p s = true -> s = p +:+ Js.drop (String.length p) s.
Proof.
  revert s; induction p as [|a p IH]; intros s H; [reflexivity|].
  destruct s as [|c s]; [discriminate|]. simpl in H.
  apply andb_true_iff in H as [Hac H]. apply Ascii.eqb_eq in Hac. subst.
  rewrite append_cons. simpl. now rewrite <- IH.
Qed.

(** The scan replaces every occurrence of a non-empty token by a
    replacement text that has no dollar sign. *)
Lemma replaceScan_literal tok new :
  tok <> "" -> Js.without "$" new ->
  forall s skip before,
    Js.replacedAll tok new (Js.drop skip s)
      (Js.replaceScan (Js.literal tok) new skip before s).
Proof.
  intros Htok Hnew. induction s as [|c r IH]; intros skip before.
  - destruct skip; constructor.
  - destruct skip as [|k]; [|apply IH].
    simpl Js.drop. simpl Js.replaceScan. unfold Js.literal at 1.
    destruct (Js.startsWith tok (String c r)) eqn:Hpre.
    + destruct tok as [|t tok']; [congruence|].
      simpl String.length. cbv iota.
      rewrite GetSubstitution_plain by exact Hnew.
      rewrite (startsWith_drop _ _ Hpre) at 1. simpl Js.drop at 1.
      apply Js.replaced_token. apply IH.
    + apply Js.replaced_char; [|apply (IH 0)].
      intros b Hb.
      assert (Js.startsWith tok (String c r) = true) by (apply startsWith_spec; now exists b).
      congruence.
Qed.

Lemma length_append a b : String.length (a +:+ b) = String.length a + String.length b.
Proof.
  induction a as [|c a IH]; [reflexivity|]. rewrite append_cons. simpl. now rewrite IH.
Qed.

(** Replacing a token by the empty text cannot make a text longer. *)
Lemma replacedAll_empty_shorter tok s r :
  Js.replacedAll tok "" s r -> String.length r <= String.length s.
Proof.
  induction 1 as [|s r _ IH|c s r _ _ IH]; [lia | | simpl; lia].
  rewrite append_nil_l, length_append. lia.
Qed.

(** C6, as the code has it. The composed message is the intro, a blank
    line, the questions joined by newlines, a blank line and the outro,
    trimmed of leading and trailing whitespace. At send time the name
    part is the candidate's name up to its first space (the whole name
    when it has none), with "Candidate" standing in for an empty name;
    when the name part has no dollar sign, every occurrence of {{name}}
    is replaced by it. For the template "Hi {{name}}" / "Q1?" / "Bye" and
    the name "Jane Doe" the message is "Hi Jane", "Q1?" and "Bye", a
    blank line between them. *)
Theorem composed_and_personalized_message
  (t : MessageTemplate) (c : Candidate) (finalMessage : string) :
  App.fullMessage t
    = Js.trim (intro t +:+ App.nl +:+ App.nl +:+ Js.join App.nl (questions t)
                       +:+ App.nl +:+ App.nl +:+ outro t)
  /\ Js.trim (App.fullMessage t) = App.fullMessage t
  /\ (name c <> "" -> Js.upToFirstSpace (name c) (ProcessingQueue.namePart c))
  /\ (name c = "" -> ProcessingQueue.namePart c = "Candidate")
  /\ (Js.without "$" (ProcessingQueue.namePart c) ->
      Js.replacedAll "{{name}}" (ProcessingQueue.namePart c) finalMessage
        (ProcessingQueue.personalizedMessage finalMessage c))
  /\ ProcessingQueue.personalizedMessage (App.fullMessage Samples.hiTemplate) Samples.jane
     = "Hi Jane" +:+ App.nl +:+ App.nl +:+ "Q1?" +:+ App.nl +:+ App.nl +:+ "Bye".
Proof.
  split; [|split; [|split; [|split; [|split]]]].
  - unfold App.fullMessage.
    replace (App.nl +:+ intro t +:+ App.nl +:+ App.nl +:+ Js.join App.nl (questions t)
               +:+ App.nl +:+ App.nl +:+ outro t +:+ App.nl)
      with (App.nl +:+ (intro t +:+ App.nl +:+ App.nl +:+ Js.join App.nl (questions t)
                          +:+ App.nl +:+ App.nl +:+ outro t) +:+ App.nl)
      by (now rewrite !append_assoc).
    now apply trim_padding.
  - unfold App.fullMessage. apply trim_idem.
  - intros Hname. unfold ProcessingQueue.namePart.
    destruct (name c) as [|a n] eqn:Hn; [congruence|]. apply splitHead_spec.
  - intros Hname. unfold ProcessingQueue.namePart. now rewrite Hname.
  - intros Hplain. unfold ProcessingQueue.personalizedMessage, Js.replaceAll.
    apply (replaceScan_literal "{{name}}" (ProcessingQueue.namePart c)
             ltac:(discriminate) Hplain finalMessage 0 "").
  - vm_compute. reflexivity.
Qed.

Lemma composed_and_personalized_message_witness :
  Js.upToFirstSpace "Jane Doe" (ProcessingQueue.namePart Samples.jane)
  /\ ProcessingQueue.namePart Samples.nameless = "Candidate"
  /\ Js.replacedAll "{{name}}" (ProcessingQueue.namePart Samples.jane) "Hi {{name}}"
       (ProcessingQueue.personalizedMessage "Hi {{name}}" Samples.jane).
Proof.
  pose proof (composed_and_personalized_message Samples.hiTemplate Samples.jane
                "Hi {{name}}") as [_ [_ [Hpart [_ [Hall _]]]]].
  pose proof (composed_and_personalized_message Samples.hiTemplate Samples.nameless
                "Hi {{name}}") as [_ [_ [_ [Hempty _]]]].
  split; [apply Hpart; discriminate|].
  split; [apply Hempty; reflexivity|].
  apply Hall. unfold Js.without. simpl. intuition discriminate.
Defined.

(** C6 fails as stated: for a candidate whose name is empty the token is
    replaced by "Candidate", not by the (empty) name. *)
Lemma empty_name_gets_placeholder :
  Js.splitHead (name Samples.nameless) = ""
  /\ ProcessingQueue.personalizedMessage "Hi {{name}}" Samples.nameless = "Hi Candidate"
  /\ ~ Js.replacedAll "{{name}}" (Js.splitHead (name Samples.nameless)) "Hi {{name}}"
         (ProcessingQueue.personalizedMessage "Hi {{name}}" Samples.nameless).
Proof.
  split; [reflexivity|]. split; [vm_compute; reflexivity|].
  intros H. apply replacedAll_empty_shorter in H. vm_compute in H. lia.
Qed.

(** A dollar sign in the name part is read as a replacement pattern:
    here the token is replaced by itself. *)
Example dollar_pattern_in_name :
  ProcessingQueue.namePart Samples.dollar = "$&"
  /\ ProcessingQueue.personalizedMessage "Hi {{name}}" Samples.dollar = "Hi {{name}}".
Proof. split; vm_compute; reflexivity. Qed.

(** ** Tone refinement *)

(** When the call to the tone collaborator throws, the service returns
    the text it was given, and the editor stores that text with its
    double quotes removed; the questions, the outro and the trace are
    untouched. *)
Lemma handleRefine_on_failure (E : Env) (t : tone) (w : App.state) :
  GeminiService.toneFails E (intro (App.template w)) t ->
  GeminiService.refineMessageTone E (intro (App.template w)) t = intro (App.template w)
  /\ App.template (MessageEditor.handleRefine E t w)
     = {| intro := Js.replaceAll (Js.charClass (Ascii.eqb MessageEditor.dquote)) ""
                     (intro (App.template w));
          questions := questions (App.template w);
          outro := outro (App.template w) |}
  /\ App.trace (MessageEditor.handleRefine E t w) = App.trace w.
Proof.
  intros Hfail.
  assert (Hsame : GeminiService.refineMessageTone E (intro (App.template w)) t
                  = intro (App.template w)).
  { unfold GeminiService.refineMessageTone, GeminiService.askTone.
    destruct Hfail as [Hkey | Hrej].
    - now rewrite Hkey.
    - destruct (GeminiService.getClient E); [now rewrite Hrej | reflexivity]. }
  split; [exact Hsame|]. split; [|reflexivity].
  unfold MessageEditor.handleRefine. now rewrite Hsame.
Qed.

(** C8. The claim is that a failing tone collaborator leaves the text
    unchanged. At the intro that quotes the word Sales, with the
    collaborator unavailable, the service hands the intro back as it is,
    and the editor stores it without its two double quotes: the text the
    user sees has changed. *)
Theorem refine_failure_strips_quotes :
  GeminiService.toneFails Samples.quietEnv Samples.quotedIntro friendly
  /\ GeminiService.refineMessageTone Samples.quietEnv Samples.quotedIntro friendly
     = Samples.quotedIntro
  /\ intro (App.template
              (MessageEditor.handleRefine Samples.quietEnv friendly
                 (App.setTemplate Samples.quotedTemplate App.initial)))
     = "Hi {{name}}, we liked your Sales profile."
  /\ intro (App.template
              (MessageEditor.handleRefine Samples.quietEnv friendly
                 (App.setTemplate Samples.quotedTemplate App.initial)))
     <> Samples.quotedIntro
  /\ App.fullMessage
       (App.template (MessageEditor.handleRefine Samples.quietEnv friendly
                        (App.setTemplate Samples.quotedTemplate App.initial)))
     <> App.fullMessage Samples.quotedTemplate.
Proof.
  split; [left; reflexivity|].
  split; [vm_compute; reflexivity|].
  split; [vm_compute; reflexivity|].
  split; intros H; vm_compute in H; discriminate.
Qed.

(** ** Ids are distinct by construction *)

Lemma digits_without_dash d : Js.without "-" (NilEmpty.string_of_uint d).
Proof.
  unfold Js.without.
  induction d; simpl; intros H; try contradiction;
    destruct H as [H | H]; try discriminate; auto.
Qed.

Lemma string_of_uint_inj d d' :
  NilEmpty.string_of_uint d = NilEmpty.string_of_uint d' -> d = d'.
Proof.
  intros H. pose proof (NilEmpty.usu d) as H1. pose proof (NilEmpty.usu d') as H2.
  rewrite H in H1. congruence.
Qed.

Lemma showNat_inj i j : Js.showNat i = Js.showNat j -> i = j.
Proof.
  intros H. apply string_of_uint_inj in H. now apply DecimalNat.Unsigned.to_uint_inj.
Qed.

(** Two texts that end in a dash and a dash-free tail have the same tail. *)
Lemma dash_tail_inj : forall a b d1 d2,
  Js.without "-" d1 -> Js.without "-" d2 ->
  a +:+ "-" +:+ d1 = b +:+ "-" +:+ d2 -> d1 = d2.
Proof.
  unfold Js.without.
  induction a as [|x a IH]; intros b d1 d2 H1 H2 Heq.
  - destruct b as [|y b]; repeat first [rewrite append_nil_l in Heq | rewrite append_cons in Heq].
    + now inversion Heq.
    + inversion Heq; subst. exfalso. apply H1.
      rewrite list_of_append. apply in_or_app. right. simpl. now left.
  - destruct b as [|y b]; repeat first [rewrite append_nil_l in Heq | rewrite append_cons in Heq].
    + inversion Heq; subst. exfalso. apply H2.
      rewrite list_of_append. apply in_or_app. right. simpl. now left.
    + inversion Heq; subst. eapply IH; eauto.
Qed.

Lemma mapCandidate_id_inj E mapping i j row row' :
  id (App.mapCandidate E mapping i row) = id (App.mapCandidate E mapping j row') -> i = j.
Proof.
  simpl. intros H. apply showNat_inj.
  rewrite <- (append_assoc "c-" (Js.showN (Date_now E i))),
          <- (append_assoc "c-" (Js.showN (Date_now E j))) in H.
  eapply dash_tail_inj; [| |exact H]; apply digits_without_dash.
Qed.

Lemma In_imap {A B} (f : nat -> A -> B) (l : list A) (y : B) :
  List.In y (imap f l) -> exists i x, y = f i x.
Proof.
  revert f; induction l as [|x l IH]; intros f; simpl; [contradiction|].
  intros [<- | Hin]; [now exists 0, x|].
  destruct (IH _ Hin) as [i [x' ->]]. now exists (S i), x'.
Qed.

Lemma NoDup_imap_ids (l : list Row) : forall f : nat -> Row -> Candidate,
  (forall i j x y, id (f i x) = id (f j y) -> i = j) ->
  List.NoDup (List.map id (imap f l)).
Proof.
  induction l as [|x l IH]; intros f Hinj; simpl; constructor.
  - intros Hin. apply in_map_iff in Hin as [c [Hid Hc]].
    apply In_imap in Hc as [i [y ->]].
    apply Hinj in Hid. discriminate.
  - apply IH. intros i j a b H. apply Hinj in H. now injection H.
Qed.

(** The roster built from an upload has distinct ids, whatever the clock
    reads. *)
Lemma constructed_roster_distinct_ids E mapping rawData :
  List.NoDup (List.map id (App.mappedCandidates E mapping rawData)).
Proof.
  unfold App.mappedCandidates. apply NoDup_ids_filter, NoDup_imap_ids.
  intros i j x y. apply mapCandidate_id_inj.
Qed.

(** * Further properties of the code *)

(** ** The CSV line splitter *)

(** Induction on a text, two characters at a time. *)
Lemma string_pair_ind (P : string -> Prop) :
  P "" ->
  (forall c, P (String c "")) ->
  (forall c1 c2 r, P r -> P (String c2 r) -> P (String c1 (String c2 r))) ->
  forall s, P s.
Proof.
  intros H0 H1 H2 s.
  assert (H : P s /\ forall c, P (String c s)).
  { induction s as [|c s [IHs IHc]]; [split; [exact H0 | exact H1]|].
    split; [apply IHc|]. intros c0. apply H2; [exact IHs | apply IHc]. }
  exact (proj1 H).
Qed.

Lemma parseLineLoop_cons char rest cur inQuote result :
  CsvService.parseLineLoop (String char rest) cur inQuote result
  = if inQuote then
      if Ascii.eqb char CsvService.quote then
        match rest with
        | String next rest' =>
            if Ascii.eqb next CsvService.quote
            then CsvService.parseLineLoop rest' (cur +:+ String CsvService.quote "")
                   true result
            else CsvService.parseLineLoop rest cur false result
        | EmptyString => CsvService.parseLineLoop rest cur false result
        end
      else CsvService.parseLineLoop rest (cur +:+ String char "") true result
    else
      if Ascii.eqb char CsvService.quote
      then CsvService.parseLineLoop rest cur true result
      else if Ascii.eqb char CsvService.comma
           then CsvService.parseLineLoop rest "" false (CsvService.push result cur)
           else CsvService.parseLineLoop rest (cur +:+ String char "") false result.
Proof. reflexivity. Qed.

(** The fields found so far are kept, in front of those still to come. *)
Lemma parseLineLoop_result text : forall cur inQuote result,
  CsvService.parseLineLoop text cur inQuote result
  = result ++ CsvService.parseLineLoop text cur inQuote [].
Proof.
  induction text as [|c|c1 c2 r IHr IHc2] using string_pair_ind;
    intros cur inQuote result.
  - reflexivity.
  - simpl. destruct inQuote.
    + destruct (Ascii.eqb c CsvService.quote); reflexivity.
    + destruct (Ascii.eqb c CsvService.quote); [reflexivity|].
      destruct (Ascii.eqb c CsvService.comma); [|reflexivity].
      unfold CsvService.push. simpl. now rewrite <- app_assoc.
  - rewrite !(parseLineLoop_cons c1). destruct inQuote.
    + destruct (Ascii.eqb c1 CsvService.quote).
      * destruct (Ascii.eqb c2 CsvService.quote); [apply IHr | apply IHc2].
      * apply IHc2.
    + destruct (Ascii.eqb c1 CsvService.quote); [apply IHc2|].
      destruct (Ascii.eqb c1 CsvService.comma); [|apply IHc2].
      rewrite (IHc2 "" false (CsvService.push result cur)),
              (IHc2 "" false (CsvService.push [] cur)).
      unfold CsvService.push. now rewrite <- app_assoc.
Qed.

Lemma parseLineLoop_unquoted text : forall cur,
  Js.without CsvService.quote text ->
  Js.join "," (CsvService.parseLineLoop text cur false []) = cur +:+ text
  /\ List.length (CsvService.parseLineLoop text cur false [])
     = S (List.length (List.filter (Ascii.eqb CsvService.comma)
                                   (list_ascii_of_string text))).
Proof.
  unfold Js.without.
  induction text as [|c r IH]; intros cur Hq.
  - simpl. now rewrite append_nil_r.
  - rewrite parseLineLoop_cons.
    assert (Hc : Ascii.eqb c CsvService.quote = false).
    { apply Ascii.eqb_neq. intros ->. apply Hq. simpl. now left. }
    assert (Hr : ~ List.In CsvService.quote (list_ascii_of_string r)).
    { intros H. apply Hq. simpl. now right. }
    rewrite Hc. cbn [list_ascii_of_string List.filter].
    rewrite (Ascii.eqb_sym CsvService.comma c).
    destruct (Ascii.eqb_spec c CsvService.comma) as [-> | Hcomma].
    + rewrite parseLineLoop_result. unfold CsvService.push. simpl List.app.
      destruct (IH "" Hr) as [Hjoin Hlen].
      destruct (CsvService.parseLineLoop r "" false []) as [|h t] eqn:Hfields;
        [discriminate|].
      split; [|simpl in *; now rewrite Hlen].
      change (Js.join "," (cur :: h :: t)) with (cur +:+ "," +:+ Js.join "," (h :: t)).
      rewrite Hjoin. reflexivity.
    + destruct (IH (cur +:+ String c "") Hr) as [Hjoin Hlen].
      split; [|exact Hlen].
      rewrite Hjoin, append_assoc. reflexivity.
Qed.

(** X1. On a line without a double quote, [parseLine] cuts at every
    comma and nowhere else: the fields joined by commas give the line
    back, and there is one field more than there are commas; an empty
    line is one empty field. *)
Theorem parseLine_unquoted_splits_at_commas (text : string) :
  Js.without CsvService.quote text ->
  Js.join "," (CsvService.parseLine text) = text
  /\ List.length (CsvService.parseLine text)
     = S (List.length (List.filter (Ascii.eqb CsvService.comma)
                                   (list_ascii_of_string text))).
Proof.
  intros Hq. unfold CsvService.parseLine.
  destruct (parseLineLoop_unquoted text "" Hq) as [Hjoin Hlen].
  split; [now rewrite Hjoin | exact Hlen].
Qed.

Lemma parseLine_unquoted_splits_at_commas_witness :
  Js.join "," (CsvService.parseLine "Ann Lee,,+1 555 0100") = "Ann Lee,,+1 555 0100"
  /\ List.length (CsvService.parseLine "Ann Lee,,+1 555 0100") = 3.
Proof.
  apply (parseLine_unquoted_splits_at_commas "Ann Lee,,+1 555 0100").
  unfold Js.without. simpl. intuition discriminate.
Defined.

(** Inside a quoted field the loop reads the doubled quotes back as one
    and leaves the field at the closing quote, when what follows does
    not begin with a quote. *)
Lemma parseLineLoop_quoted field : forall rest cur result,
  (forall r, rest <> String CsvService.quote r) ->
  CsvService.parseLineLoop
    (CsvService.doubleQuotes field +:+ String CsvService.quote rest) cur true result
  = CsvService.parseLineLoop rest (cur +:+ field) false result.
Proof.
  induction field as [|c f IH]; intros rest cur result Hrest.
  - rewrite append_nil_r. simpl CsvService.doubleQuotes. rewrite append_nil_l.
    rewrite parseLineLoop_cons. rewrite Ascii.eqb_refl.
    destruct rest as [|next rest']; [reflexivity|].
    destruct (Ascii.eqb_spec next CsvService.quote) as [-> | _]; [|reflexivity].
    now destruct (Hrest rest').
  - simpl CsvService.doubleQuotes.
    destruct (Ascii.eqb_spec c CsvService.quote) as [-> | Hc].
    + rewrite !append_cons, parseLineLoop_cons, !Ascii.eqb_refl.
      rewrite IH by exact Hrest. now rewrite append_assoc.
    + rewrite append_cons, parseLineLoop_cons.
      apply Ascii.eqb_neq in Hc. rewrite Hc.
      rewrite IH by exact Hrest. now rewrite append_assoc.
Qed.

Lemma parseLineLoop_quoted_fields fields : forall result,
  fields <> [] ->
  CsvService.parseLineLoop (Js.join "," (List.map CsvService.quoted fields)) "" false result
  = result ++ fields.
Proof.
  induction fields as [|f fs IH]; intros result Hne; [congruence|].
  destruct fs as [|g gs].
  - simpl Js.join. unfold CsvService.quoted.
    rewrite append_cons, parseLineLoop_cons, Ascii.eqb_refl.
    rewrite parseLineLoop_quoted by (intros r H; discriminate H). reflexivity.
  - change (Js.join "," (List.map CsvService.quoted (f :: g :: gs)))
      with (CsvService.quoted f +:+ "," +:+
            Js.join "," (List.map CsvService.quoted (g :: gs))).
    unfold CsvService.quoted at 1.
    rewrite append_assoc, !append_cons, !append_nil_l.
    rewrite parseLineLoop_cons, Ascii.eqb_refl.
    rewrite parseLineLoop_quoted by (intros r H; inversion H).
    rewrite append_nil_l, parseLineLoop_cons.
    change (Ascii.eqb "," CsvService.quote) with false.
    change (Ascii.eqb "," CsvService.comma) with true. cbv iota.
    rewrite IH by discriminate.
    unfold CsvService.push. now rewrite <- app_assoc.
Qed.

(** X2. [parseLine] reads back what a spreadsheet writes: for any fields,
    whatever commas and quotes they hold, the line made of the fields
    between quotes (each quote of a field doubled), separated by commas,
    parses to exactly those fields. *)
Theorem parseLine_reads_quoted_fields (fields : list string) :
  fields <> [] ->
  CsvService.parseLine (Js.join "," (List.map CsvService.quoted fields)) = fields.
Proof.
  intros Hne. unfold CsvService.parseLine.
  now rewrite parseLineLoop_quoted_fields.
Qed.

Lemma parseLine_reads_quoted_fields_witness :
  CsvService.parseLine (Js.join "," (List.map CsvService.quoted MoreSamples.awkwardFields))
  = MoreSamples.awkwardFields.
Proof.
  apply (parseLine_reads_quoted_fields MoreSamples.awkwardFields). discriminate.
Defined.

(** ** The CSV file reader *)

Lemma splitLines_one_line s :
  Js.without CsvService.LF s -> CsvService.splitLines s = [s].
Proof.
  unfold Js.without. induction s as [|c r IH]; intros Hno; [reflexivity|].
  assert (Hc : Ascii.eqb c CsvService.LF = false).
  { apply Ascii.eqb_neq. intros ->. apply Hno. simpl. now left. }
  assert (Hr : ~ List.In CsvService.LF (list_ascii_of_string r)).
  { intros H. apply Hno. simpl. now right. }
  cbn [CsvService.splitLines]. rewrite Hc.
  destruct (Ascii.eqb c CsvService.CR).
  - destruct r as [|c2 r2]; [reflexivity|].
    assert (Hc2 : Ascii.eqb c2 CsvService.LF = false).
    { apply Ascii.eqb_neq. intros ->. apply Hr. simpl. now left. }
    rewrite Hc2. now rewrite (IH Hr).
  - now rewrite (IH Hr).
Qed.

Lemma parseCSV_one_line content :
  Js.without CsvService.LF (Js.trim content) -> CsvService.parseCSV content = [].
Proof.
  intros Hno. unfold CsvService.parseCSV. now rewrite (splitLines_one_line _ Hno).
Qed.

(** X3. A file that, once trimmed, has no line feed (an empty file, or a
    header line alone, with or without a line break after it) gives no
    row at all. *)
Theorem parseCSV_needs_two_lines (content : string) :
  Js.without CsvService.LF (Js.trim content) -> CsvService.parseCSV content = [].
Proof. apply parseCSV_one_line. Qed.

Lemma parseCSV_needs_two_lines_witness :
  CsvService.parseCSV ("Name,Phone" +:+ MoreSamples.newline) = [].
Proof.
  apply (parseCSV_needs_two_lines ("Name,Phone" +:+ MoreSamples.newline)).
  unfold Js.without. vm_compute. intuition discriminate.
Defined.

Lemma insertKey_plain k v row :
  CsvService.isArrayIndex k = false -> CsvService.insertKey k v row = row ++ [(k, v)].
Proof.
  intros Hk. induction row as [|[k' v'] row IH]; [reflexivity|].
  simpl. rewrite Hk. simpl. now rewrite IH.
Qed.

Lemma hasKey_false k row :
  ~ List.In k (List.map fst row) -> CsvService.hasKey k row = false.
Proof.
  intros Hno. unfold CsvService.hasKey. apply not_true_is_false. intros H.
  apply existsb_exists in H as [kv [Hin Heq]]. apply String.eqb_eq in Heq.
  apply Hno. rewrite <- Heq. now apply in_map.
Qed.

(** A key that is new, is no array index and is not [__proto__] goes to
    the end of the row. *)
Lemma rowSet_fresh k v row :
  k <> "__proto__" -> CsvService.isArrayIndex k = false ->
  ~ List.In k (List.map fst row) ->
  CsvService.rowSet k v row = row ++ [(k, v)].
Proof.
  intros Hproto Hidx Hnew. unfold CsvService.rowSet.
  apply String.eqb_neq in Hproto. rewrite Hproto, (hasKey_false _ _ Hnew).
  now apply insertKey_plain.
Qed.

Lemma fillRow_plain values headers : forall index row,
  List.NoDup (List.map fst row ++ List.map Js.trim headers) ->
  List.Forall (fun h => Js.trim h <> "__proto__"
                        /\ CsvService.isArrayIndex (Js.trim h) = false) headers ->
  CsvService.fillRow headers index values row
  = row ++ List.combine (List.map Js.trim headers)
                        (List.map (CsvService.cell values)
                                  (List.seq index (List.length headers))).
Proof.
  induction headers as [|h hs IH]; intros index row Hnd Hplain.
  - simpl. now rewrite app_nil_r.
  - inversion Hplain as [|? ? [Hproto Hidx] Hplain']; subst.
    simpl List.map in Hnd.
    assert (Hnew : ~ List.In (Js.trim h) (List.map fst row)).
    { apply NoDup_remove_2 in Hnd. intros Hin. apply Hnd. apply in_or_app. now left. }
    cbn [CsvService.fillRow]. rewrite (rowSet_fresh _ _ _ Hproto Hidx Hnew).
    rewrite IH; [|rewrite map_app; simpl; rewrite <- app_assoc; exact Hnd | exact Hplain'].
    rewrite <- app_assoc. reflexivity.
Qed.

Lemma cell_trimmed values index :
  Js.trim (CsvService.cell values index) = CsvService.cell values index.
Proof.
  unfold CsvService.cell. destruct (nth_error values index) as [v|]; [|reflexivity].
  simpl. destruct (Js.trim v) eqn:Hv; [reflexivity|]. rewrite <- Hv. apply trim_idem.
Qed.

Lemma In_dataRows headers lines row :
  List.In row (CsvService.dataRows headers lines) ->
  exists line, List.In line lines /\ Js.trim line <> ""
               /\ row = CsvService.fillRow headers 0 (CsvService.parseLine line) [].
Proof.
  induction lines as [|l lines IH]; simpl; [contradiction|].
  destruct (String.eqb_spec (Js.trim l) "") as [Hblank | Hline].
  - intros Hin. destruct (IH Hin) as [line [H1 H2]]. exists line. tauto.
  - intros [<- | Hin].
    + exists l. tauto.
    + destruct (IH Hin) as [line [H1 H2]]. exists line. tauto.
Qed.

Lemma map_fst_combine {A B} (a : list A) : forall b : list B,
  List.length a = List.length b -> List.map fst (List.combine a b) = a.
Proof.
  induction a as [|x a IH]; intros [|y b] Hlen; simpl in *; try discriminate;
    [reflexivity|]. now rewrite IH by lia.
Qed.

Lemma map_snd_combine {A B} (a : list A) : forall b : list B,
  List.length a = List.length b -> List.map snd (List.combine a b) = b.
Proof.
  induction a as [|x a IH]; intros [|y b] Hlen; simpl in *; try discriminate;
    [reflexivity|]. now rewrite IH by lia.
Qed.

(** X4. When the trimmed headers of the first line are distinct, none of
    them an array index or [__proto__], every row [parseCSV] returns has
    exactly those headers as its keys, in header order; its values are
    the cells of one non-blank line after the first, position by
    position, each trimmed, and the empty text where the line is short. *)
Theorem parseCSV_rows_follow_headers
  (content first : string) (rest : list string) (row : Row) :
  CsvService.splitLines (Js.trim content) = first :: rest ->
  List.NoDup (List.map Js.trim (CsvService.parseLine first)) ->
  List.Forall (fun h => Js.trim h <> "__proto__"
                        /\ CsvService.isArrayIndex (Js.trim h) = false)
              (CsvService.parseLine first) ->
  List.In row (CsvService.parseCSV content) ->
  List.map fst row = List.map Js.trim (CsvService.parseLine first)
  /\ (exists line,
        List.In line rest /\ Js.trim line <> ""
        /\ List.map snd row
           = List.map (CsvService.cell (CsvService.parseLine line))
                      (List.seq 0 (List.length (CsvService.parseLine first))))
  /\ List.Forall (fun kv => Js.trim (snd kv) = snd kv) row.
Proof.
  intros Hlines Hnd Hplain Hin.
  unfold CsvService.parseCSV in Hin. rewrite Hlines in Hin.
  destruct rest as [|l rest']; [contradiction|].
  apply In_dataRows in Hin as [line [Hline [Hnonblank ->]]].
  rewrite fillRow_plain by assumption. rewrite app_nil_l.
  assert (Hlen : List.length (List.map Js.trim (CsvService.parseLine first))
                 = List.length (List.map (CsvService.cell (CsvService.parseLine line))
                                  (List.seq 0 (List.length (CsvService.parseLine first))))).
  { now rewrite !List.length_map, List.length_seq. }
  split; [|split].
  - now apply map_fst_combine.
  - exists line. split; [exact Hline|]. split; [exact Hnonblank|].
    now rewrite map_snd_combine by exact Hlen.
  - apply List.Forall_forall. intros [k v] Hkv. simpl.
    apply in_combine_r, in_map_iff in Hkv as [i [<- _]]. apply cell_trimmed.
Qed.

Lemma parseCSV_rows_follow_headers_witness :
  CsvService.parseCSV MoreSamples.smallCsv
  = [ [("Name", "Bob"); ("Phone", "12"); ("Role", "Dev")];
      [("Name", "Ann Lee"); ("Phone", "+1 (555) 012-3456"); ("Role", "")] ]
  /\ List.map fst [("Name", "Ann Lee"); ("Phone", "+1 (555) 012-3456"); ("Role", "")]
     = List.map Js.trim (CsvService.parseLine "Name, Phone ,Role").
Proof.
  split; [vm_compute; reflexivity|].
  apply (parseCSV_rows_follow_headers MoreSamples.smallCsv "Name, Phone ,Role"
           ["Bob,12,Dev"; "  "; " Ann Lee ,+1 (555) 012-3456"]
           [("Name", "Ann Lee"); ("Phone", "+1 (555) 012-3456"); ("Role", "")]).
  - vm_compute. reflexivity.
  - vm_compute. repeat (constructor; [simpl; intuition discriminate|]); constructor.
  - replace (CsvService.parseLine "Name, Phone ,Role") with ["Name"; " Phone "; "Role"]
      by (vm_compute; reflexivity).
    repeat (constructor;
            [cbv beta; split; [vm_compute; discriminate | vm_compute; reflexivity]|]);
      constructor.
  - vm_compute. right. left. reflexivity.
Defined.

(** ** The upload component *)

Section Upload.
Variable parseExcel : FileUpload.File -> option (list Row).

Lemma processFile_delivers_rows file st st' rawData :
  FileUpload.processFile parseExcel file st = (st', Some rawData) ->
  rawData <> [] /\ FileUpload.error st' = None.
Proof.
  unfold FileUpload.processFile.
  destruct (negb (FileUpload.endsWith (FileUpload.fname file) ".csv")
            && negb (FileUpload.endsWith (FileUpload.fname file) ".xlsx"
                     || FileUpload.endsWith (FileUpload.fname file) ".xls"));
    [discriminate|].
  destruct (if FileUpload.endsWith (FileUpload.fname file) ".csv"
            then Some (CsvService.parseCSV (FileUpload.text file))
            else parseExcel file) as [parsed|]; [|discriminate].
  destruct parsed as [|r parsed]; simpl; [discriminate|].
  intros H. inversion H; subst. split; [discriminate | reflexivity].
Qed.

End Upload.

(** X5. The upload component hands data over only when it has rows, and
    says why when it does not: a file whose name ends in none of .csv,
    .xlsx, .xls (the test is on the exact characters, so a name ending
    .CSV is refused) and a CSV file that yields no row are turned away
    with their own messages, and nothing reaches the application. *)
Theorem upload_turns_away_bad_files
  (parseExcel : FileUpload.File -> option (list Row))
  (file : FileUpload.File) (st : FileUpload.state) :
  (FileUpload.endsWith (FileUpload.fname file) ".csv" = false ->
   FileUpload.endsWith (FileUpload.fname file) ".xlsx" = false ->
   FileUpload.endsWith (FileUpload.fname file) ".xls" = false ->
   FileUpload.processFile parseExcel file st
   = (FileUpload.setError (Some "Please upload a valid CSV or Excel file.") st, None))
  /\ (FileUpload.endsWith (FileUpload.fname file) ".csv" = true ->
      Js.without CsvService.LF (Js.trim (FileUpload.text file)) ->
      FileUpload.processFile parseExcel file st
      = (FileUpload.setError (Some "The file appears to be empty.") st, None))
  /\ (forall st' rawData,
        FileUpload.processFile parseExcel file st = (st', Some rawData) ->
        rawData <> [] /\ FileUpload.error st' = None).
Proof.
  split; [|split].
  - intros H1 H2 H3. unfold FileUpload.processFile. now rewrite H1, H2, H3.
  - intros Hcsv Hone. unfold FileUpload.processFile. rewrite Hcsv. simpl negb.
    cbv iota. simpl andb. cbv iota.
    now rewrite (parseCSV_one_line _ Hone).
  - intros st' rawData. apply processFile_delivers_rows.
Qed.

Lemma upload_turns_away_bad_files_witness :
  FileUpload.processFile MoreSamples.noExcel MoreSamples.shoutedFile FileUpload.initial
  = (FileUpload.setError (Some "Please upload a valid CSV or Excel file.")
       FileUpload.initial, None)
  /\ FileUpload.processFile MoreSamples.noExcel MoreSamples.headerOnlyFile
       FileUpload.initial
     = (FileUpload.setError (Some "The file appears to be empty.") FileUpload.initial,
        None)
  /\ CsvService.parseCSV MoreSamples.smallCsv <> [].
Proof.
  pose proof (upload_turns_away_bad_files MoreSamples.noExcel MoreSamples.shoutedFile
                FileUpload.initial) as [Hname _].
  pose proof (upload_turns_away_bad_files MoreSamples.noExcel MoreSamples.headerOnlyFile
                FileUpload.initial) as [_ [Hempty _]].
  pose proof (upload_turns_away_bad_files MoreSamples.noExcel MoreSamples.csvFile
                FileUpload.initial) as [_ [_ Hrows]].
  split; [apply Hname; reflexivity|].
  split; [apply Hempty; [reflexivity | unfold Js.without; vm_compute; intuition discriminate]|].
  apply (Hrows FileUpload.initial). vm_compute. reflexivity.
Defined.



(** ** Ticking rows *)

(** X7. Ticking a row flips that row and no other; ticking it twice
    leaves the queue as it was. *)
Theorem toggleSelection_flips_one (cid other : string) (q : ProcessingQueue.state) :
  (cid ∈ ProcessingQueue.selectedIds (ProcessingQueue.toggleSelection cid q)
   <-> cid ∉ ProcessingQueue.selectedIds q)
  /\ (other <> cid ->
      (other ∈ ProcessingQueue.selectedIds (ProcessingQueue.toggleSelection cid q)
       <-> other ∈ ProcessingQueue.selectedIds q))
  /\ ProcessingQueue.toggleSelection cid (ProcessingQueue.toggleSelection cid q) = q.
Proof.
  destruct q as [cc busy shown sel kind].
  unfold ProcessingQueue.toggleSelection. simpl.
  destruct (bool_decide_reflect (cid ∈ sel)) as [Hin | Hout]; simpl.
  - split; [set_solver|]. split; [set_solver|].
    destruct (bool_decide_reflect (cid ∈ sel ∖ {[cid]})) as [H | _]; [set_solver|].
    unfold ProcessingQueue.setSelectedIds. simpl. f_equal. apply set_eq. intros x.
    destruct (decide (x = cid)); set_solver.
  - split; [set_solver|]. split; [set_solver|].
    destruct (bool_decide_reflect (cid ∈ sel ∪ {[cid]})) as [_ | H]; [|set_solver].
    unfold ProcessingQueue.setSelectedIds. simpl. f_equal. set_solver.
Qed.

Lemma toggleSelection_flips_one_witness :
  ("c-1-0" ∈ ProcessingQueue.selectedIds
               (ProcessingQueue.toggleSelection "c-1-1" Samples.bobTicked)
   <-> "c-1-0" ∈ ProcessingQueue.selectedIds Samples.bobTicked).
Proof.
  apply (toggleSelection_flips_one "c-1-1" "c-1-0" Samples.bobTicked). discriminate.
Defined.

Lemma selectedIds_set (sel : gset string) (q : ProcessingQueue.state) :
  ProcessingQueue.selectedIds (ProcessingQueue.setSelectedIds sel q) = sel.
Proof. reflexivity. Qed.

(** X8. "Select all" looks only at how many ids are ticked: when that
    number is the length of the roster it clears the selection, otherwise
    it ticks exactly the ids of the roster. With distinct ids, pressing it
    twice from an empty selection gives the empty selection back. *)
Theorem toggleSelectAll_by_size (q : ProcessingQueue.state) (w : App.state) :
  (size (ProcessingQueue.selectedIds q) = List.length (App.candidates w) ->
   ProcessingQueue.selectedIds (ProcessingQueue.toggleSelectAll q w) = ∅)
  /\ (size (ProcessingQueue.selectedIds q) <> List.length (App.candidates w) ->
      forall i, i ∈ ProcessingQueue.selectedIds (ProcessingQueue.toggleSelectAll q w)
                <-> List.In i (List.map id (App.candidates w)))
  /\ (List.NoDup (List.map id (App.candidates w)) ->
      ProcessingQueue.selectedIds q = ∅ ->
      ProcessingQueue.selectedIds
        (ProcessingQueue.toggleSelectAll (ProcessingQueue.toggleSelectAll q w) w) = ∅).
Proof.
  unfold ProcessingQueue.toggleSelectAll.
  split; [|split].
  - intros Hsize. apply Nat.eqb_eq in Hsize. now rewrite Hsize.
  - intros Hsize i. apply Nat.eqb_neq in Hsize. rewrite Hsize. simpl.
    now rewrite elem_of_list_to_set, list_elem_of_In.
  - intros Hnd Hempty.
    destruct (Nat.eqb_spec (size (ProcessingQueue.selectedIds q))
                           (List.length (App.candidates w))) as [Heq | Hne].
    + rewrite Hempty, size_empty in Heq. rewrite selectedIds_set, size_empty, <- Heq.
      reflexivity.
    + rewrite selectedIds_set, size_list_to_set by now apply NoDup_ListNoDup.
      rewrite List.length_map, Nat.eqb_refl. reflexivity.
Qed.

Lemma toggleSelectAll_by_size_witness :
  (forall i, i ∈ ProcessingQueue.selectedIds
                   (ProcessingQueue.toggleSelectAll Samples.bobTicked
                      (Samples.withRoster Samples.roster3))
             <-> List.In i ["c-1-0"; "c-1-1"; "c-1-2"])
  /\ ProcessingQueue.selectedIds
       (ProcessingQueue.toggleSelectAll
          (ProcessingQueue.toggleSelectAll ProcessingQueue.initial
             (Samples.withRoster Samples.roster3))
          (Samples.withRoster Samples.roster3)) = ∅
  /\ ProcessingQueue.selectedIds
       (ProcessingQueue.toggleSelectAll ProcessingQueue.initial App.initial) = ∅.
Proof.
  pose proof (toggleSelectAll_by_size Samples.bobTicked
                (Samples.withRoster Samples.roster3)) as [_ [Hpart _]].
  pose proof (toggleSelectAll_by_size ProcessingQueue.initial
                (Samples.withRoster Samples.roster3)) as [_ [_ Htwice]].
  pose proof (toggleSelectAll_by_size ProcessingQueue.initial App.initial)
    as [Hnone _].
  split; [|split].
  - apply Hpart.
    change (size ({[ "c-1-1" ]} : gset string) <> 3). rewrite size_singleton. lia.
  - apply Htwice; [clear Hpart Htwice Hnone; distinct_ids | reflexivity].
  - apply Hnone. reflexivity.
Defined.

(** ** What a send shows *)

Lemma opened_app a b : opened (a ++ b) = opened a ++ opened b.
Proof. unfold opened. apply flat_map_app. Qed.

Lemma alerts_app a b : alerts (a ++ b) = alerts a ++ alerts b.
Proof. unfold alerts. apply flat_map_app. Qed.

Lemma statusCalls_app a b : statusCalls (a ++ b) = statusCalls a ++ statusCalls b.
Proof. unfold statusCalls. apply flat_map_app. Qed.

Section Sends.
Variable E : Env.

Lemma openWhatsApp_answer c w w0 :
  opened (App.trace w0) = opened (App.trace w) ->
  App.template w0 = App.template w ->
  fst (ProcessingQueue.openWhatsApp E c w0) = answer E c w
  /\ App.trace (snd (ProcessingQueue.openWhatsApp E c w0))
     = App.trace w0
       ++ (if hasDigits c
           then [WindowOpen (ProcessingQueue.whatsAppUrl (ProcessingQueue.finalMessage w) c)
                            (answer E c w)]
           else [])
  /\ App.candidates (snd (ProcessingQueue.openWhatsApp E c w0)) = App.candidates w0
  /\ App.template (snd (ProcessingQueue.openWhatsApp E c w0)) = App.template w0
  /\ App.db (snd (ProcessingQueue.openWhatsApp E c w0)) = App.db w0.
Proof.
  intros Hopened Htemplate.
  unfold ProcessingQueue.openWhatsApp, answer, hasDigits, ProcessingQueue.finalMessage.
  rewrite Hopened, Htemplate.
  destruct (String.eqb (ProcessingQueue.formatPhone (phone c)) ""); simpl.
  - rewrite app_nil_r. repeat split; try reflexivity; assumption.
  - repeat split; try reflexivity; assumption.
Qed.


Lemma processOne_shows c w :
  App.trace (ProcessingQueue.processOne E c w)
  = App.trace w
    ++ [StatusSet (id c) sending; Timeout 1500]
    ++ (if hasDigits c
        then [WindowOpen (ProcessingQueue.whatsAppUrl (ProcessingQueue.finalMessage w) c)
                         (answer E c w)]
        else [])
    ++ [StatusSet (id c) (if answer E c w then sent else failed)]
  /\ App.template (ProcessingQueue.processOne E c w) = App.template w.
Proof.
  unfold ProcessingQueue.processOne.
  pose proof (openWhatsApp_answer c w
                (App.emit (Timeout 1500) (App.handleUpdateStatus E (id c) sending w)))
    as Hopen.
  destruct (ProcessingQueue.openWhatsApp E c
              (App.emit (Timeout 1500) (App.handleUpdateStatus E (id c) sending w)))
    as [success w3].
  destruct Hopen as [Hok [Htrace [_ [Htpl _]]]].
  - cbn [App.trace App.emit App.handleUpdateStatus App.setCandidates App.withDb].
    rewrite !opened_app. simpl. now rewrite !app_nil_r.
  - reflexivity.
  - simpl in Hok, Htrace, Htpl. rewrite Hok.
    destruct (answer E c w);
      cbn [App.trace App.emit App.handleUpdateStatus App.setCandidates App.withDb
           App.template];
      rewrite Htrace, ?Htpl;
      cbn [App.trace App.emit App.handleUpdateStatus App.setCandidates App.withDb
           App.template];
      rewrite <- !app_assoc; split; reflexivity.
Qed.

Lemma processLoop_shows ts : forall w,
  opened (App.trace (ProcessingQueue.processLoop E ts w))
  = opened (App.trace w)
    ++ List.map (ProcessingQueue.whatsAppUrl (ProcessingQueue.finalMessage w))
                (List.filter hasDigits ts)
  /\ alerts (App.trace (ProcessingQueue.processLoop E ts w)) = alerts (App.trace w).
Proof.
  induction ts as [|t ts IH]; intros w.
  - simpl. now rewrite app_nil_r.
  - destruct (processOne_shows t w) as [Htrace Htpl].
    destruct (IH (ProcessingQueue.processOne E t w)) as [Hopened Halerts].
    simpl ProcessingQueue.processLoop. rewrite Hopened, Halerts, Htrace.
    unfold ProcessingQueue.finalMessage at 2. rewrite Htpl.
    fold (ProcessingQueue.finalMessage w).
    rewrite !opened_app, !alerts_app. cbn [List.filter].
    destruct (hasDigits t); simpl; rewrite ?app_nil_r, <- ?app_assoc; split; reflexivity.
Qed.

End Sends.


(** X10. A bulk send asks for one window per target whose phone has a
    digit, in the order of the targets and each with that target's link,
    and shows no alert, whatever the browser answers. *)
Theorem bulk_send_windows_and_no_alert
  (E : Env) (q : ProcessingQueue.state) (w : App.state) :
  opened (App.trace (snd (ProcessingQueue.confirmBulkSend E q w)))
  = opened (App.trace w)
    ++ List.map (ProcessingQueue.whatsAppUrl (ProcessingQueue.finalMessage w))
                (List.filter hasDigits (ProcessingQueue.bulkTargets q w))
  /\ alerts (App.trace (snd (ProcessingQueue.confirmBulkSend E q w)))
     = alerts (App.trace w).
Proof. apply processLoop_shows. Qed.

(** ** The link *)

Lemma code_below_256 c : Js.code c < 256.
Proof. unfold Js.code. apply nat_ascii_bounded. Qed.

Lemma hexDigit_unreserved n : n < 16 -> Js.uriUnreserved (Js.hexDigit n) = true.
Proof.
  intros Hn. do 16 (destruct n as [|n]; [reflexivity|]). lia.
Qed.

Lemma percent_safe byte :
  byte < 256 -> List.Forall urlSafe (list_ascii_of_string (Js.percent byte)).
Proof.
  intros Hb. unfold Js.percent. cbn [list_ascii_of_string].
  constructor; [now right|].
  constructor; [left; apply hexDigit_unreserved; apply Nat.Div0.div_lt_upper_bound; lia|].
  constructor; [left; apply hexDigit_unreserved; apply Nat.mod_upper_bound; lia|].
  constructor.
Qed.

Lemma encodeURIComponent_safe s :
  List.Forall urlSafe (list_ascii_of_string (Js.encodeURIComponent s)).
Proof.
  induction s as [|c r IH]; [constructor|].
  cbn [Js.encodeURIComponent]. rewrite list_of_append. apply Forall_app. split; [|exact IH].
  destruct (Js.uriUnreserved c) eqn:Hu.
  - simpl. constructor; [now left | constructor].
  - pose proof (code_below_256 c) as Hc.
    destruct (Nat.ltb (Js.code c) 128).
    + apply percent_safe. lia.
    + rewrite list_of_append. apply Forall_app. split; apply percent_safe.
      * assert (Js.code c / 64 < 4) by (apply Nat.Div0.div_lt_upper_bound; lia). lia.
      * assert (Js.code c mod 64 < 64) by (apply Nat.mod_upper_bound; lia). lia.
Qed.

(** X11. The link of a send is the address of the messaging service
    followed by a phone parameter made of digits only and a text
    parameter made only of characters that need no escape and of percent
    signs: whatever the template and the name hold, no ampersand, equals
    sign, hash, space or line break reaches the link through the text. *)
Theorem link_is_well_formed (finalMessage : string) (c : Candidate) :
  exists digits text,
    ProcessingQueue.whatsAppUrl finalMessage c
    = "https://api.whatsapp.com/send?phone=" +:+ digits +:+ "&text=" +:+ text
    /\ List.Forall (fun ch => Js.isDigit ch = true) (list_ascii_of_string digits)
    /\ List.Forall urlSafe (list_ascii_of_string text)
    /\ List.Forall (fun ch => ~ List.In ch ["&"; "="; "#"; " "; "+"; "?"; "/";
                                            CsvService.LF; CsvService.CR]%char)
                   (list_ascii_of_string text).
Proof.
  exists (ProcessingQueue.formatPhone (phone c)),
         (Js.encodeURIComponent (ProcessingQueue.personalizedMessage finalMessage c)).
  split; [reflexivity|]. split; [|split].
  - rewrite formatPhone_filter. apply List.Forall_forall. intros ch Hch.
    now apply filter_In in Hch.
  - apply encodeURIComponent_safe.
  - eapply List.Forall_impl; [|apply encodeURIComponent_safe].
    intros ch [Hsafe | ->] Hin; simpl in Hin.
    + repeat (destruct Hin as [<- | Hin]; [discriminate Hsafe|]). exact Hin.
    + repeat (destruct Hin as [Heq | Hin]; [discriminate Heq|]). exact Hin.
Qed.

(** ** Bulk edits of the status *)

Lemma withStatus_twice st c : App.withStatus st (App.withStatus st c) = App.withStatus st c.
Proof. reflexivity. Qed.








(** ** What no operation touches *)

Section Preserved.
Variable E : Env.
Variable P : App.state -> Prop.
Hypothesis P_update : forall w i st, P w -> P (App.handleUpdateStatus E i st w).
Hypothesis P_emit : forall w e, isEffect e -> P w -> P (App.emit e w).

Lemma openWhatsApp_preserves c w : P w -> P (snd (ProcessingQueue.openWhatsApp E c w)).
Proof.
  intros Hw. unfold ProcessingQueue.openWhatsApp.
  destruct (String.eqb (ProcessingQueue.formatPhone (phone c)) ""); simpl; [exact Hw|].
  now apply P_emit.
Qed.

Lemma executeSend_preserves c w : P w -> P (ProcessingQueue.executeSend E c w).
Proof.
  intros Hw. unfold ProcessingQueue.executeSend.
  pose proof (openWhatsApp_preserves c
                (App.emit (Timeout 800) (App.handleUpdateStatus E (id c) sending w))) as H.
  destruct (ProcessingQueue.openWhatsApp E c _) as [success w3]. simpl in H.
  assert (Hw3 : P w3) by (apply H, P_emit; [exact I | now apply P_update]).
  destruct success; [now apply P_update|].
  apply P_emit; [exact I | now apply P_update].
Qed.

Lemma processOne_preserves c w : P w -> P (ProcessingQueue.processOne E c w).
Proof.
  intros Hw. unfold ProcessingQueue.processOne.
  pose proof (openWhatsApp_preserves c
                (App.emit (Timeout 1500) (App.handleUpdateStatus E (id c) sending w))) as H.
  destruct (ProcessingQueue.openWhatsApp E c _) as [success w3]. simpl in H.
  assert (Hw3 : P w3) by (apply H, P_emit; [exact I | now apply P_update]).
  destruct success; now apply P_update.
Qed.

Lemma processLoop_preserves ts : forall w, P w -> P (ProcessingQueue.processLoop E ts w).
Proof.
  induction ts as [|t ts IH]; intros w Hw; [exact Hw|].
  simpl. apply IH. now apply processOne_preserves.
Qed.

Lemma forEach_preserves (g : Candidate -> bool) st cs : forall w,
  P w ->
  P (ProcessingQueue.forEachCandidate
       (fun c w0 => if g c then App.handleUpdateStatus E (id c) st w0 else w0) cs w).
Proof.
  induction cs as [|c cs IH]; intros w Hw; [exact Hw|].
  simpl. apply IH. destruct (g c); auto.
Qed.

(** What a status update and an observed effect keep, every operation
    keeps. *)
Lemma run_preserves op q w : P w -> P (snd (run E op q w)).
Proof.
  intros Hw. destruct op as [c|c|c| | | |]; simpl.
  - now apply executeSend_preserves.
  - now apply executeSend_preserves.
  - now apply P_update.
  - unfold confirmIfShown.
    destruct (ProcessingQueue.showBulkConfirm _); [|exact Hw].
    now apply processLoop_preserves.
  - unfold confirmIfShown.
    destruct (ProcessingQueue.showBulkConfirm _); [|exact Hw].
    now apply processLoop_preserves.
  - now apply forEach_preserves.
  - now apply forEach_preserves.
Qed.

End Preserved.

Lemma identity_updateRoster i st cs :
  List.map identity (App.updateRoster i st cs) = List.map identity cs.
Proof.
  unfold App.updateRoster. rewrite List.map_map. apply List.map_ext. intros c.
  now destruct (String.eqb (id c) i).
Qed.

(** X14. No operation of the workflow adds, removes, reorders or renames
    a candidate: after it the roster has the same entries in the same
    order, with the same id, name, phone and original row; only statuses
    can differ. The template is untouched as well. *)
Theorem operations_keep_the_roster_entries
  (E : Env) (op : operation) (q : ProcessingQueue.state) (w : App.state) :
  List.map identity (App.candidates (snd (run E op q w)))
  = List.map identity (App.candidates w)
  /\ App.template (snd (run E op q w)) = App.template w
  /\ App.step (snd (run E op q w)) = App.step w.
Proof.
  apply (run_preserves E
           (fun w' => List.map identity (App.candidates w')
                      = List.map identity (App.candidates w)
                      /\ App.template w' = App.template w
                      /\ App.step w' = App.step w)).
  - intros w' i st [H1 [H2 H3]]. rewrite candidates_handleUpdateStatus, identity_updateRoster.
    repeat split; assumption.
  - intros w' e _ H. exact H.
  - repeat split.
Qed.

(** X15. While the adapter is in offline mode no operation of the
    workflow sends anything to the store: the list of requests and the
    flag are as before, however many statuses the operation sets. *)
Theorem offline_workflow_sends_nothing
  (E : Env) (op : operation) (q : ProcessingQueue.state) (w : App.state) :
  DbService.isOfflineMode (App.db w) = true ->
  App.db (snd (run E op q w)) = App.db w.
Proof.
  intros Hoff.
  apply (run_preserves E (fun w' => App.db w' = App.db w)).
  - intros w' i st Hdb. unfold App.handleUpdateStatus. cbn [App.db App.withDb].
    cbn [App.db App.setCandidates App.emit]. rewrite Hdb.
    unfold DbService.updateStatus. now rewrite Hoff.
  - intros w' e _ H. exact H.
  - reflexivity.
Qed.

Lemma offline_workflow_sends_nothing_witness :
  App.db (snd (run Samples.quietEnv BulkSendAll ProcessingQueue.initial
                 (App.withDb Samples.offlineDb (Samples.withRoster Samples.roster3))))
  = Samples.offlineDb.
Proof.
  apply (offline_workflow_sends_nothing Samples.quietEnv BulkSendAll
           ProcessingQueue.initial
           (App.withDb Samples.offlineDb (Samples.withRoster Samples.roster3))).
  reflexivity.
Defined.

(** ** The store as a mirror of the workflow *)

Lemma statusCalls_effect tr e :
  isEffect e -> statusCalls (tr ++ [e]) = statusCalls tr.
Proof.
  intros He. rewrite statusCalls_app. destruct e; simpl in *; [contradiction| | |];
    apply app_nil_r.
Qed.

Lemma updateStatus_online E cid st s :
  schemaPresent E -> DbService.isOfflineMode s = false ->
  DbService.updateStatus E cid st s
  = {| DbService.isOfflineMode := false;
       DbService.requests := DbService.requests s ++ [Update cid st] |}.
Proof.
  intros Hpresent Hon. unfold DbService.updateStatus, DbService.afterWrite, DbService.send.
  rewrite Hon.
  destruct (error (supabase E (DbService.requests s) (Update cid st))) as [e|] eqn:He;
    [|reflexivity].
  now rewrite (Hpresent _ _ _ He).
Qed.

(** X16. While the adapter is online and the store never reports the
    schema absent, every operation of the workflow sends the store one
    update per status call, in the order of the calls, and nothing else;
    the adapter stays online even when the store answers with errors of
    another kind. *)
Theorem online_workflow_mirrors_status_calls
  (E : Env) (op : operation) (q : ProcessingQueue.state) (w : App.state) :
  schemaPresent E ->
  DbService.isOfflineMode (App.db w) = false ->
  DbService.isOfflineMode (App.db (snd (run E op q w))) = false
  /\ DbService.requests (App.db (snd (run E op q w)))
     = DbService.requests (App.db w)
       ++ List.map mirror (newCalls w (snd (run E op q w))).
Proof.
  intros Hpresent Hon.
  assert (H : DbService.isOfflineMode (App.db (snd (run E op q w))) = false
              /\ exists calls,
                   statusCalls (App.trace (snd (run E op q w)))
                   = statusCalls (App.trace w) ++ calls
                   /\ DbService.requests (App.db (snd (run E op q w)))
                      = DbService.requests (App.db w) ++ List.map mirror calls).
  { apply (run_preserves E
             (fun w' => DbService.isOfflineMode (App.db w') = false
                        /\ exists calls,
                             statusCalls (App.trace w')
                             = statusCalls (App.trace w) ++ calls
                             /\ DbService.requests (App.db w')
                                = DbService.requests (App.db w) ++ List.map mirror calls)).
    - intros w' i st [Hon' [calls [Hcalls Hreq]]].
      unfold App.handleUpdateStatus.
      cbn [App.db App.withDb App.trace App.setCandidates App.emit].
      rewrite (updateStatus_online E i st _ Hpresent Hon'). cbn.
      split; [reflexivity|]. exists (calls ++ [(i, st)]).
      rewrite statusCalls_app, Hcalls, Hreq, List.map_app, <- !app_assoc. now split.
    - intros w' e He [Hon' [calls [Hcalls Hreq]]].
      split; [exact Hon'|]. exists calls. cbn [App.trace App.emit App.db].
      now rewrite (statusCalls_effect _ _ He).
    - split; [exact Hon|]. exists []. now rewrite !app_nil_r. }
  destruct H as [Hflag [calls [Hcalls Hreq]]].
  split; [exact Hflag|]. now rewrite (newCalls_exact _ _ _ Hcalls).
Qed.

Lemma quietEnv_schemaPresent : schemaPresent Samples.quietEnv.
Proof. intros before rq e H. discriminate H. Qed.

Lemma online_workflow_mirrors_status_calls_witness :
  DbService.requests
    (App.db (snd (run Samples.quietEnv (Retry Samples.bob) ProcessingQueue.initial
                    (Samples.withRoster Samples.roster3))))
  = [Update "c-1-1" sending; Update "c-1-1" sent].
Proof.
  apply (online_workflow_mirrors_status_calls Samples.quietEnv (Retry Samples.bob)
           ProcessingQueue.initial (Samples.withRoster Samples.roster3)).
  - exact quietEnv_schemaPresent.
  - reflexivity.
Defined.

(** ** The adapter: what comes back, and other errors *)

Lemma mapRow_toRow c : DbService.mapRow (DbService.toRow c) = c.
Proof. now destruct c. Qed.

(** X17. What is added comes back: when the adapter is online, the store
    accepts the rows of a non-empty list of candidates and then answers
    a read with those rows, [getAllCandidates] after [addCandidates]
    returns the same candidates, with the same id, name, phone, status
    and original row, in the same order, and no error. *)
Theorem added_candidates_come_back
  (E : Env) (cs : list Candidate) (s : DbService.state) :
  DbService.isOfflineMode s = false ->
  cs <> [] ->
  error (supabase E (DbService.requests s) (Upsert (List.map DbService.toRow cs))) = None ->
  supabase E (DbService.requests s ++ [Upsert (List.map DbService.toRow cs)]) Select
    = {| data := Some (List.map DbService.toRow cs); error := None |} ->
  fst (DbService.getAllCandidates E (DbService.addCandidates E cs s)) = (cs, None).
Proof.
  intros Hon Hcs Hok Hread.
  unfold DbService.addCandidates. rewrite Hon.
  destruct cs as [|c cs']; [congruence|]. simpl orb. cbv iota.
  unfold DbService.afterWrite, DbService.send. rewrite Hok.
  unfold DbService.getAllCandidates, DbService.send. cbn [DbService.requests].
  rewrite Hread. cbn [error data fst].
  rewrite List.map_map. f_equal.
  rewrite <- (List.map_id (c :: cs')) at 2.
  apply List.map_ext. intros x. apply mapRow_toRow.
Qed.

Lemma added_candidates_come_back_witness :
  fst (DbService.getAllCandidates Samples.storeEnv
         (DbService.addCandidates Samples.storeEnv Samples.roster3 DbService.initial))
  = (Samples.roster3, None).
Proof.
  apply (added_candidates_come_back Samples.storeEnv Samples.roster3 DbService.initial).
  - reflexivity.
  - discriminate.
  - reflexivity.
  - vm_compute. reflexivity.
Defined.

Lemma retryConnection_other_error E s e :
  error (supabase E (DbService.requests s) Select) = Some e ->
  DbService.missingTable e = false ->
  message e <> "missing_table" ->
  DbService.retryConnection E s
  = (true, {| DbService.isOfflineMode := false;
              DbService.requests := DbService.requests s ++ [Select] |}).
Proof.
  intros He Hm Hmsg.
  unfold DbService.retryConnection, DbService.getAllCandidates, DbService.send.
  cbn [DbService.setOffline DbService.requests DbService.isOfflineMode].
  rewrite He, Hm. apply String.eqb_neq in Hmsg. now rewrite Hmsg.
Qed.

(** X18. An error of the store other than schema-absent never changes
    the offline flag: the three writes swallow it, [getAllCandidates]
    answers with the empty list and the error's message, and
    [retryConnection] then reports the connection as good (unless the
    message is the very text "missing_table") with the adapter online. *)
Theorem other_errors_keep_the_mode
  (E : Env) (s : DbService.state) (cs : list Candidate) (cid : string) (st : status)
  (rq : request) (e : pgError) :
  error (supabase E (DbService.requests s) rq) = Some e ->
  DbService.missingTable e = false ->
  (rq = Upsert (List.map DbService.toRow cs) ->
   DbService.isOfflineMode (DbService.addCandidates E cs s) = DbService.isOfflineMode s)
  /\ (rq = Update cid st ->
      DbService.isOfflineMode (DbService.updateStatus E cid st s)
      = DbService.isOfflineMode s)
  /\ (rq = DeleteAll ->
      DbService.isOfflineMode (DbService.clearCandidates E s) = DbService.isOfflineMode s)
  /\ (rq = Select ->
      DbService.getAllCandidates E s
      = (([], Some (message e)),
         {| DbService.isOfflineMode := DbService.isOfflineMode s;
            DbService.requests := DbService.requests s ++ [Select] |})
      /\ (message e <> "missing_table" ->
          DbService.retryConnection E s
          = (true, {| DbService.isOfflineMode := false;
                      DbService.requests := DbService.requests s ++ [Select] |}))).
Proof.
  intros He Hm.
  split; [|split; [|split]].
  - intros ->. unfold DbService.addCandidates.
    destruct (DbService.isOfflineMode s || Nat.eqb (List.length cs) 0); [reflexivity|].
    unfold DbService.afterWrite, DbService.send. now rewrite He, Hm.
  - intros ->. unfold DbService.updateStatus.
    destruct (DbService.isOfflineMode s) eqn:Hoff; [exact Hoff|].
    unfold DbService.afterWrite, DbService.send. rewrite He, Hm. exact Hoff.
  - intros ->. unfold DbService.clearCandidates.
    destruct (DbService.isOfflineMode s) eqn:Hoff; [exact Hoff|].
    unfold DbService.afterWrite, DbService.send. rewrite He, Hm. exact Hoff.
  - intros ->. split.
    + unfold DbService.getAllCandidates, DbService.send. now rewrite He, Hm.
    + intros Hmsg. exact (retryConnection_other_error E s e He Hm Hmsg).
Qed.

Lemma other_errors_keep_the_mode_witness :
  DbService.isOfflineMode
    (DbService.updateStatus MoreSamples.unreachableEnv "c-1-0" sent DbService.initial)
  = false
  /\ DbService.isOfflineMode
       (DbService.addCandidates MoreSamples.unreachableEnv Samples.roster3
          DbService.initial) = false
  /\ DbService.isOfflineMode
       (DbService.clearCandidates MoreSamples.unreachableEnv DbService.initial) = false
  /\ fst (DbService.retryConnection MoreSamples.unreachableEnv Samples.offlineDb) = true.
Proof.
  pose proof (fun rq => other_errors_keep_the_mode MoreSamples.unreachableEnv
                DbService.initial Samples.roster3 "c-1-0" sent rq MoreSamples.networkDown
                eq_refl eq_refl) as H.
  pose proof (other_errors_keep_the_mode MoreSamples.unreachableEnv
                Samples.offlineDb Samples.roster3 "c-1-0" sent Select
                MoreSamples.networkDown eq_refl eq_refl) as [_ [_ [_ Hsel]]].
  split; [apply (proj1 (proj2 (H (Update "c-1-0" sent)))); reflexivity|].
  split; [apply (proj1 (H (Upsert (List.map DbService.toRow Samples.roster3))));
          reflexivity|].
  split; [apply (proj1 (proj2 (proj2 (H DeleteAll)))); reflexivity|].
  destruct (Hsel eq_refl) as [_ Hretry]. rewrite Hretry; [reflexivity | discriminate].
Defined.

(** ** Loading at startup and verifying the connection *)

(** X19. The load at startup always ends the loading state. When the
    store reports the schema absent, the page shows the database as
    offline and keeps its roster and step; when the store answers without
    error but with no rows, nothing but the loading flag changes, and the
    page stays on its step. *)
Theorem load_without_rows (E : Env) (w : App.state) :
  App.isLoadingDB (App.loadCandidates E w) = false
  /\ (DbService.schemaAbsent E (App.db w) Select ->
      App.dbStatus (App.loadCandidates E w) = App.offline
      /\ DbService.isOfflineMode (App.db (App.loadCandidates E w)) = true
      /\ App.candidates (App.loadCandidates E w) = App.candidates w
      /\ App.step (App.loadCandidates E w) = App.step w)
  /\ (error (supabase E (DbService.requests (App.db w)) Select) = None ->
      data (supabase E (DbService.requests (App.db w)) Select) = None
      \/ data (supabase E (DbService.requests (App.db w)) Select) = Some [] ->
      App.dbStatus (App.loadCandidates E w) = App.dbStatus w
      /\ App.candidates (App.loadCandidates E w) = App.candidates w
      /\ App.step (App.loadCandidates E w) = App.step w).
Proof.
  split; [|split].
  - unfold App.loadCandidates.
    destruct (DbService.getAllCandidates E (App.db w)) as [[rows err] db1].
    destruct (match err with Some m => String.eqb m "missing_table" | None => false end);
      [reflexivity|].
    destruct (Nat.ltb 0 (List.length rows)); reflexivity.
  - intros [e [He Hm]].
    unfold App.loadCandidates, DbService.getAllCandidates, DbService.send.
    rewrite He, Hm. repeat split.
  - intros Herr Hdata.
    unfold App.loadCandidates, DbService.getAllCandidates, DbService.send.
    rewrite Herr. destruct Hdata as [-> | ->]; repeat split.
Qed.

Lemma load_without_rows_witness :
  App.dbStatus (App.loadCandidates Samples.noTableEnv App.initial) = App.offline
  /\ App.step (App.loadCandidates Samples.quietEnv App.initial) = UPLOAD.
Proof.
  pose proof (load_without_rows Samples.noTableEnv App.initial) as [_ [Habsent _]].
  pose proof (load_without_rows Samples.quietEnv App.initial) as [_ [_ Hempty]].
  split.
  - apply Habsent. eexists; split; reflexivity.
  - apply Hempty; [reflexivity | right; reflexivity].
Defined.

(** X20. "Verify Connection" marks the database as connected exactly
    when [retryConnection] returns true, and otherwise shows one alert
    and leaves the mark alone: with the schema still absent the page
    stays offline, and after an error of another kind it shows the
    database as connected although the read failed. *)
Theorem verify_connection_outcomes (E : Env) (w : App.state) (e : pgError) :
  (fst (DbService.retryConnection E (App.db w)) = true ->
   App.dbStatus (App.handleVerifyConnection E w) = App.connected
   /\ App.trace (App.handleVerifyConnection E w) = App.trace w)
  /\ (fst (DbService.retryConnection E (App.db w)) = false ->
      App.dbStatus (App.handleVerifyConnection E w) = App.dbStatus w
      /\ alerts (App.trace (App.handleVerifyConnection E w))
         = alerts (App.trace w)
           ++ ["Still cannot find the 'candidates' table. Please ensure the SQL ran successfully in Supabase."])
  /\ (DbService.schemaAbsent E (App.db w) Select ->
      fst (DbService.retryConnection E (App.db w)) = false
      /\ DbService.isOfflineMode (App.db (App.handleVerifyConnection E w)) = true)
  /\ (error (supabase E (DbService.requests (App.db w)) Select) = Some e ->
      DbService.missingTable e = false ->
      message e <> "missing_table" ->
      App.dbStatus (App.handleVerifyConnection E w) = App.connected
      /\ DbService.isOfflineMode (App.db (App.handleVerifyConnection E w)) = false).
Proof.
  unfold App.handleVerifyConnection.
  split; [|split; [|split]].
  - destruct (DbService.retryConnection E (App.db w)) as [ok db1]. simpl.
    intros ->. split; reflexivity.
  - destruct (DbService.retryConnection E (App.db w)) as [ok db1]. simpl.
    intros ->. split; [reflexivity|].
    cbn [App.trace App.emit App.withDb]. now rewrite alerts_app.
  - intros Habs. rewrite (retryConnection_absent E _ Habs). split; reflexivity.
  - intros He Hm Hmsg.
    rewrite (retryConnection_other_error E _ e He Hm Hmsg). split; reflexivity.
Qed.

Lemma verify_connection_outcomes_witness :
  App.dbStatus (App.handleVerifyConnection Samples.quietEnv
                  (App.setDbStatus App.offline
                     (App.withDb Samples.offlineDb App.initial))) = App.connected
  /\ App.dbStatus (App.handleVerifyConnection Samples.noTableEnv
                     (App.setDbStatus App.offline
                        (App.withDb Samples.offlineDb App.initial))) = App.offline
  /\ DbService.isOfflineMode
       (App.db (App.handleVerifyConnection Samples.noTableEnv
                  (App.setDbStatus App.offline
                     (App.withDb Samples.offlineDb App.initial)))) = true
  /\ App.dbStatus (App.handleVerifyConnection MoreSamples.unreachableEnv
                     (App.setDbStatus App.offline
                        (App.withDb Samples.offlineDb App.initial))) = App.connected.
Proof.
  pose proof (verify_connection_outcomes Samples.quietEnv
                (App.setDbStatus App.offline (App.withDb Samples.offlineDb App.initial))
                MoreSamples.networkDown) as [Hgood _].
  pose proof (verify_connection_outcomes Samples.noTableEnv
                (App.setDbStatus App.offline (App.withDb Samples.offlineDb App.initial))
                MoreSamples.networkDown) as [_ [Hbad [Habsent _]]].
  pose proof (verify_connection_outcomes MoreSamples.unreachableEnv
                (App.setDbStatus App.offline (App.withDb Samples.offlineDb App.initial))
                MoreSamples.networkDown) as [_ [_ [_ Hother]]].
  split; [apply Hgood; reflexivity|].
  split; [apply Hbad; reflexivity|].
  split; [apply Habsent; eexists; split; reflexivity|].
  apply Hother; [reflexivity | reflexivity | discriminate].
Defined.

(** ** What an upload sends to the store *)





(** ** The roster of an upload, row by row *)




(** ** The fallback picks headers *)

Lemma firstWithOr_header P dflt headers h x :
  GeminiService.firstWithOr P dflt headers h -> h = Some x -> List.In x headers.
Proof.
  intros [[y [-> [pre [post [-> _]]]]] | [_ ->]] Hx.
  - inversion Hx; subst. apply in_or_app. right. now left.
  - now apply nth_error_In in Hx.
Qed.

Lemma firstWithOr_some P dflt headers h :
  GeminiService.firstWithOr P dflt headers h -> dflt < List.length headers -> h <> None.
Proof.
  intros [[y [-> _]] | [_ ->]] Hlen; [discriminate|].
  now apply nth_error_Some.
Qed.

(** X23. The columns of the fallback mapping are headers of the file:
    whatever it names is one of the headers given, the name column is
    named as soon as there is one header and the phone column as soon as
    there are two; with no header at all both are undefined. *)
Theorem fallback_names_headers (headers : list string) (x : string) :
  (name_column (GeminiService.fallbackMapping headers) = Some x -> List.In x headers)
  /\ (phone_column (GeminiService.fallbackMapping headers) = Some x -> List.In x headers)
  /\ (0 < List.length headers ->
      name_column (GeminiService.fallbackMapping headers) <> None)
  /\ (1 < List.length headers ->
      phone_column (GeminiService.fallbackMapping headers) <> None)
  /\ (headers = [] ->
      name_column (GeminiService.fallbackMapping headers) = None
      /\ phone_column (GeminiService.fallbackMapping headers) = None).
Proof.
  assert (Hname : GeminiService.firstWithOr
                    (fun h => GeminiService.containsCI h "name") 0 headers
                    (name_column (GeminiService.fallbackMapping headers))).
  { apply orElse_find; [|reflexivity]. intros h. apply includes_lower_iff. }
  assert (Hphone : GeminiService.firstWithOr
                     (fun h => GeminiService.containsCI h "phone"
                               \/ GeminiService.containsCI h "mobile"
                               \/ GeminiService.containsCI h "contact") 1 headers
                     (phone_column (GeminiService.fallbackMapping headers))).
  { apply orElse_find; [|reflexivity].
    intros h. rewrite !orb_true_iff, !includes_lower_iff. tauto. }
  split; [apply (firstWithOr_header _ _ _ _ _ Hname)|].
  split; [apply (firstWithOr_header _ _ _ _ _ Hphone)|].
  split; [apply (firstWithOr_some _ _ _ _ Hname)|].
  split; [apply (firstWithOr_some _ _ _ _ Hphone)|].
  intros ->. split; reflexivity.
Qed.

Lemma fallback_names_headers_witness :
  List.In "Who" ["Who"; "Tel"]
  /\ List.In "Tel" ["Who"; "Tel"]
  /\ name_column (GeminiService.fallbackMapping ["Who"; "Tel"]) <> None
  /\ phone_column (GeminiService.fallbackMapping ["Who"; "Tel"]) <> None
  /\ phone_column (GeminiService.fallbackMapping []) = None.
Proof.
  pose proof (fallback_names_headers ["Who"; "Tel"] "Who") as [Hname _].
  pose proof (fallback_names_headers ["Who"; "Tel"] "Tel")
    as [_ [Hphone [Hone [Htwo _]]]].
  pose proof (fallback_names_headers [] "") as [_ [_ [_ [_ Hnone]]]].
  split; [apply Hname; reflexivity|].
  split; [apply Hphone; reflexivity|].
  split; [apply Hone; simpl; lia|].
  split; [apply Htwo; simpl; lia|].
  apply Hnone. reflexivity.
Defined.

(** ** The message editor *)

Lemma dropIndex_past index : forall qs pos,
  index < pos -> MessageEditor.dropIndex index pos qs = qs.
Proof.
  induction qs as [|x qs IH]; intros pos Hlt; [reflexivity|].
  cbn [MessageEditor.dropIndex].
  destruct (Nat.eqb_spec pos index) as [Heq | _]; [lia|].
  now rewrite IH by lia.
Qed.

Lemma dropIndex_spec index : forall qs pos,
  pos <= index ->
  MessageEditor.dropIndex index pos qs
  = List.firstn (index - pos) qs ++ List.skipn (S (index - pos)) qs.
Proof.
  induction qs as [|x qs IH]; intros pos Hle.
  - cbn [MessageEditor.dropIndex]. now rewrite List.firstn_nil, List.skipn_nil.
  - cbn [MessageEditor.dropIndex].
    destruct (Nat.eqb_spec pos index) as [-> | Hne].
    + rewrite Nat.sub_diag, dropIndex_past by lia. reflexivity.
    + destruct (index - pos) as [|k] eqn:Hk; [lia|].
      rewrite IH by lia. replace (index - S pos) with k by lia. reflexivity.
Qed.

(** X24. Removing a question drops the question at that position and
    keeps the others in order; a position past the end removes nothing;
    a question just added is removed again by its position, the last. *)
Theorem remove_question_by_position (index : nat) (w : App.state) :
  questions (App.template (MessageEditor.removeQuestion index w))
  = List.firstn index (questions (App.template w))
    ++ List.skipn (S index) (questions (App.template w))
  /\ (List.length (questions (App.template w)) <= index ->
      App.template (MessageEditor.removeQuestion index w) = App.template w)
  /\ (index < List.length (questions (App.template w)) ->
      S (List.length (questions (App.template (MessageEditor.removeQuestion index w))))
      = List.length (questions (App.template w)))
  /\ App.template
       (MessageEditor.removeQuestion (List.length (questions (App.template w)))
          (MessageEditor.addQuestion w))
     = App.template w.
Proof.
  assert (Hdrop : forall i qs,
            MessageEditor.dropIndex i 0 qs = List.firstn i qs ++ List.skipn (S i) qs).
  { intros i qs. rewrite dropIndex_spec by lia. now rewrite Nat.sub_0_r. }
  split; [|split; [|split]].
  - simpl. apply Hdrop.
  - intros Hlen. unfold MessageEditor.removeQuestion. simpl. rewrite Hdrop.
    rewrite List.firstn_all2 by exact Hlen. rewrite List.skipn_all2 by lia.
    rewrite app_nil_r. now destruct (App.template w).
  - intros Hlen. simpl. rewrite Hdrop, List.length_app, List.length_firstn,
      List.length_skipn. lia.
  - unfold MessageEditor.removeQuestion, MessageEditor.addQuestion. simpl.
    rewrite Hdrop.
    rewrite List.firstn_app, Nat.sub_diag, List.firstn_all. simpl List.firstn.
    rewrite app_nil_r, List.skipn_all2 by (rewrite List.length_app; simpl; lia).
    rewrite app_nil_r. now destruct (App.template w).
Qed.

Lemma remove_question_by_position_witness :
  App.template (MessageEditor.removeQuestion 9 App.initial) = App.template App.initial
  /\ List.length (questions (App.template (MessageEditor.removeQuestion 0 App.initial)))
     = 8.
Proof.
  pose proof (remove_question_by_position 9 App.initial) as [_ [Hpast _]].
  pose proof (remove_question_by_position 0 App.initial) as [_ [_ [Hin _]]].
  split; [apply Hpast; simpl; lia|].
  assert (H : S (List.length (questions (App.template
                                           (MessageEditor.removeQuestion 0 App.initial))))
              = 9) by (apply Hin; simpl; lia).
  lia.
Defined.




(** X26. The preview of the editor shows what is sent: for a candidate
    with a non-empty name, the text of the preview bubble under that name
    is the personalized message of a send, character for character. *)
Theorem preview_is_what_is_sent (t : MessageTemplate) (c : Candidate) :
  name c <> "" ->
  MessageEditor.preview t (name c)
  = ProcessingQueue.personalizedMessage (App.fullMessage t) c.
Proof.
  intros Hname. unfold MessageEditor.preview, ProcessingQueue.personalizedMessage,
    ProcessingQueue.namePart.
  destruct (name c) as [|a n]; [congruence|]. reflexivity.
Qed.

Lemma preview_is_what_is_sent_witness :
  MessageEditor.preview Samples.hiTemplate "Jane Doe"
  = ProcessingQueue.personalizedMessage (App.fullMessage Samples.hiTemplate) Samples.jane.
Proof.
  apply (preview_is_what_is_sent Samples.hiTemplate Samples.jane). discriminate.
Defined.

Lemma trimStart_tidy s : startsTidy s -> Js.trimStart s = s.
Proof. intros [c [r [-> Hc]]]. now rewrite trimStart_cons, Hc. Qed.

Lemma trimEnd_tidy s : endsTidy s -> Js.trimEnd s = s.
Proof.
  intros [r [c [-> Hc]]]. induction r as [|x r IH].
  - rewrite append_nil_l, trimEnd_cons, allWhiteSpace_cons, Hc. reflexivity.
  - rewrite append_cons, trimEnd_cons, allWhiteSpace_cons, allWhiteSpace_app,
      allWhiteSpace_cons, Hc.
    rewrite andb_false_l, andb_false_r, andb_false_r. now rewrite IH.
Qed.

(** X27. When the intro begins and the outro ends with a character that
    is no whitespace, trimming removes nothing but the line breaks of the
    template literal: the composed message is exactly the intro, a blank
    line, the questions one per line, a blank line and the outro. *)
Theorem tidy_template_composes_exactly (t : MessageTemplate) :
  startsTidy (intro t) -> endsTidy (outro t) ->
  App.fullMessage t
  = intro t +:+ App.nl +:+ App.nl +:+ Js.join App.nl (questions t)
            +:+ App.nl +:+ App.nl +:+ outro t.
Proof.
  intros Hstart Hend. unfold App.fullMessage.
  replace (App.nl +:+ intro t +:+ App.nl +:+ App.nl +:+ Js.join App.nl (questions t)
             +:+ App.nl +:+ App.nl +:+ outro t +:+ App.nl)
    with (App.nl +:+ (intro t +:+ App.nl +:+ App.nl +:+ Js.join App.nl (questions t)
                        +:+ App.nl +:+ App.nl +:+ outro t) +:+ App.nl)
    by (now rewrite !append_assoc).
  rewrite trim_padding by reflexivity. unfold Js.trim.
  rewrite trimStart_tidy.
  - apply trimEnd_tidy. destruct Hend as [r [c [-> Hc]]].
    exists (intro t +:+ App.nl +:+ App.nl +:+ Js.join App.nl (questions t)
                    +:+ App.nl +:+ App.nl +:+ r), c.
    split; [now rewrite !append_assoc | exact Hc].
  - destruct Hstart as [c [r [-> Hc]]].
    exists c, (r +:+ App.nl +:+ App.nl +:+ Js.join App.nl (questions t)
                 +:+ App.nl +:+ App.nl +:+ outro t).
    split; [now rewrite append_cons | exact Hc].
Qed.

Lemma tidy_template_composes_exactly_witness :
  App.fullMessage Samples.hiTemplate
  = "Hi {{name}}" +:+ App.nl +:+ App.nl +:+ "Q1?" +:+ App.nl +:+ App.nl +:+ "Bye".
Proof.
  apply (tidy_template_composes_exactly Samples.hiTemplate).
  - exists "H"%char, "i {{name}}". split; reflexivity.
  - exists "By", "e"%char. split; reflexivity.
Defined.

(** ** Ids and updates *)

(** X28. The ids of the roster an upload builds are distinct, whatever
    the clock reads while the rows are mapped, even when it reads the
    same time for every row. *)
Theorem upload_gives_distinct_ids (E : Env) (rawData : list Row) (w : App.state) :
  rawData <> [] ->
  List.NoDup (List.map id (App.candidates (App.handleDataLoaded E rawData w))).
Proof.
  intros Hne. destruct rawData as [|first rest]; [congruence|].
  rewrite candidates_handleDataLoaded. apply constructed_roster_distinct_ids.
Qed.

Lemma upload_gives_distinct_ids_witness :
  List.NoDup (List.map id (App.candidates
                             (App.handleDataLoaded Samples.quietEnv
                                [Samples.annRow; Samples.annRow] App.initial))).
Proof.
  apply (upload_gives_distinct_ids Samples.quietEnv [Samples.annRow; Samples.annRow]
           App.initial).
  discriminate.
Defined.

Lemma updateRoster_unknown i st cs :
  ~ List.In i (List.map id cs) -> App.updateRoster i st cs = cs.
Proof.
  intros Hno. unfold App.updateRoster.
  rewrite <- (List.map_id cs) at 2. apply List.map_ext_in. intros c Hc.
  destruct (String.eqb_spec (id c) i) as [Heq | _]; [|reflexivity].
  exfalso. apply Hno. rewrite <- Heq. now apply in_map.
Qed.

(** X29. A status update for an id the roster does not have changes no
    candidate, and is sent to the store all the same while the adapter
    is online; an update repeated with the same status changes the
    roster no further. *)
Theorem update_of_unknown_id (E : Env) (cid : string) (st : status) (w : App.state) :
  (~ List.In cid (List.map id (App.candidates w)) ->
   App.candidates (App.handleUpdateStatus E cid st w) = App.candidates w)
  /\ (DbService.isOfflineMode (App.db w) = false ->
      DbService.requests (App.db (App.handleUpdateStatus E cid st w))
      = DbService.requests (App.db w) ++ [Update cid st])
  /\ App.candidates (App.handleUpdateStatus E cid st (App.handleUpdateStatus E cid st w))
     = App.candidates (App.handleUpdateStatus E cid st w).
Proof.
  split; [|split].
  - intros Hno. rewrite candidates_handleUpdateStatus. now apply updateRoster_unknown.
  - intros Hon. unfold App.handleUpdateStatus.
    cbn [App.db App.withDb App.setCandidates App.emit].
    unfold DbService.updateStatus, DbService.afterWrite, DbService.send. rewrite Hon.
    destruct (error (supabase E (DbService.requests (App.db w)) (Update cid st)))
      as [e|]; [destruct (DbService.missingTable e)|]; reflexivity.
  - rewrite !candidates_handleUpdateStatus. apply updateRoster_twice.
Qed.

Lemma update_of_unknown_id_witness :
  App.candidates (App.handleUpdateStatus Samples.quietEnv "c-9-9" sent
                    (Samples.withRoster Samples.roster3)) = Samples.roster3
  /\ DbService.requests
       (App.db (App.handleUpdateStatus Samples.quietEnv "c-9-9" sent
                  (Samples.withRoster Samples.roster3))) = [Update "c-9-9" sent].
Proof.
  pose proof (update_of_unknown_id Samples.quietEnv "c-9-9" sent
                (Samples.withRoster Samples.roster3)) as [Hroster [Hsent _]].
  split; [apply Hroster; simpl; intuition discriminate | apply Hsent; reflexivity].
Defined.
